(** * Housing/component/data_transformation.py

    A shallow embedding of the feature-engineering component
    ([FeatureGenerator]) and of the orchestration around it
    ([DataTransformation]), followed by the properties proved about them.

    Conventions.
    - numpy [float64] values are Rocq's primitive binary64 floats, so that
      [/] below is IEEE 754 division, with its infinities and NaN; numpy is
      in its default error state, where a division by zero warns and goes on;
    - a Python call that may raise returns a [result];
    - Python integers are [Z]; array positions obtained from them follow
      numpy's rule for negative indices;
    - the calls to [logging.info] are left out: they write to the log and
      return. *)

From Stdlib Require Import ZArith Floats Ascii Lia.
From stdpp Require Import base option list strings gmap.

Local Open Scope Z_scope.
Local Open Scope nat_scope.

(** ** Python exceptions and the result of a call *)

Module Py.

(** Modelled from the spec: the class [HousingException] of
    [Housing.exception] is not part of the sources at hand; it is the single
    domain error type, carrying the original cause.  [HousingException cause]
    is what [raise HousingException(e, sys) from e] raises, [cause] being its
    [__cause__]; [Exc cls] is an exception of any other class, named [cls].
    All are subclasses of [Exception], which is what the [except] clauses of
    the component catch. *)
Inductive exn : Type :=
  | Exc (cls : string)
  | HousingException (cause : exn).

Definition ValueError : exn := Exc "ValueError".
Definition IndexError : exn := Exc "IndexError".
Definition KeyError : exn := Exc "KeyError".
Definition TypeError : exn := Exc "TypeError".
Definition NotFittedError : exn := Exc "NotFittedError".

Inductive result (A : Type) : Type :=
  | Ok (a : A)
  | Raise (e : exn).
Arguments Ok {A} a.
Arguments Raise {A} e.

#[export] Instance result_ret : MRet result := @Ok.
#[export] Instance result_bind : MBind result := λ A B f r,
  match r with Ok a => f a | Raise e => Raise e end.
#[export] Instance result_fmap : FMap result := λ A B f r,
  match r with Ok a => Ok (f a) | Raise e => Raise e end.

(** [try: body except Exception as e: raise HousingException(e, sys) from e] *)
Definition try_except_HousingException {A} (body : result A) : result A :=
  match body with
  | Ok a => Ok a
  | Raise e => Raise (HousingException e)
  end.

(** [l.index(x)]: the first position of [x], [ValueError] when absent. *)
Fixpoint list_index (x : string) (l : list string) : result nat :=
  match l with
  | [] => Raise ValueError
  | y :: l' => if decide (y = x) then Ok 0 else S <$> list_index x l'
  end.

End Py.
Import Py.

(** ** numpy arrays *)

Module Np.

(** A two-dimensional array of shape [(length rows, ncols)], row-major. *)
Record ndarray (A : Type) : Type := NdArray { ncols : nat; rows : list (list A) }.
Arguments NdArray {A} ncols rows.
Arguments ncols {A} _.
Arguments rows {A} _.

Definition nrows {A} (X : ndarray A) : nat := length (rows X).

(** Every row has [ncols] entries: what numpy guarantees of any array. *)
Definition rectangular {A} (X : ndarray A) : Prop :=
  Forall (λ r, length r = ncols X) (rows X).

(** [X[i, j]] for positions inside the array. *)
Definition entry {A} (X : ndarray A) (i j : nat) : option A :=
  rows X !! i ≫= (.!! j).

(** Position on an axis of length [n] named by the Python integer [i]:
    [0 .. n-1] as they are, [-n .. -1] counted from the end, anything else
    is an [IndexError]. *)
Definition axis_index (n : nat) (i : Z) : result nat :=
  if decide (0 ≤ i < Z.of_nat n)%Z then Ok (Z.to_nat i)
  else if decide (- Z.of_nat n ≤ i < 0)%Z then Ok (Z.to_nat (i + Z.of_nat n))
  else Raise IndexError.

(** [X[:, i]] *)
Definition column `{Inhabited A} (X : ndarray A) (i : Z) : result (list A) :=
  j ← axis_index (ncols X) i;
  Ok ((.!!! j) <$> rows X).

(** [a / b] on one-dimensional [float64] arrays: element by element, an
    array of length one being broadcast; a zero divisor gives an infinity
    or NaN (and a warning), it does not raise. *)
Definition divide (a b : list float) : result (list float) :=
  if decide (length a = length b) then Ok (zip_with PrimFloat.div a b)
  else match a, b with
       | [x], _ => Ok (PrimFloat.div x <$> b)
       | _, [y] => Ok ((λ x, PrimFloat.div x y) <$> a)
       | _, _ => Raise ValueError
       end.

(** What IEEE 754 division returns for a zero divisor: an infinity
    ([x / 0] for [x] not zero) or NaN ([0 / 0], [NaN / 0]). *)
Definition is_inf_or_nan (x : float) : bool :=
  PrimFloat.is_infinity x || PrimFloat.is_nan x.

Definition append_column {A} (rs : list (list A)) (c : list A) : list (list A) :=
  zip_with (λ r v, r ++ [v]) rs c.

(** [np.c_[X, c1, ..., ck]]: a new array, the one-dimensional [c]s added as
    columns on the right of [X]; [ValueError] unless each has one entry per
    row of [X]. *)
Definition c_ {A} (X : ndarray A) (cs : list (list A)) : result (ndarray A) :=
  if forallb (λ c, Nat.eqb (length c) (nrows X)) cs
  then Ok (NdArray (ncols X + length cs) (foldl append_column (rows X) cs))
  else Raise ValueError.

End Np.

(** ** Array objects

    The arrays alive in the interpreter, by identity.  An array handed to a
    function is handed by reference: the callee could write into it. *)

Module Heap.

Definition loc : Type := nat.

(** A newly created array gets an identity no live array has. *)
Definition alloc {A} (h : gmap loc A) (a : A) : loc * gmap loc A :=
  let l := fresh (dom h) in (l, <[l := a]> h).

End Heap.

#[export] Instance float_inhabited : Inhabited float := populate PrimFloat.zero.

(** ** Housing.constant *)

Module Constant.

(** Modelled from the spec: the module [Housing.constant] is not part of the
    sources at hand; the four required column names are the ones the
    specification lists. *)
Definition COLUMN_TOTAL_ROOMS : string := "total_rooms".
Definition COLUMN_POPULATION : string := "population".
Definition COLUMN_HOUSEHOLDS : string := "households".
Definition COLUMN_TOTAL_BEDROOM : string := "total_bedrooms".

End Constant.

(** ** class FeatureGenerator *)

Module FeatureGenerator.
Import Constant.

Record t : Type := Build {
  columns : option (list string);
  add_bedrooms_per_room : bool;
  total_rooms_ix : Z;
  population_ix : Z;
  households_ix : Z;
  total_bedrooms_ix : Z
}.

(** The names [__init__] looks up, in the order it looks them up. *)
Definition required_columns : list string :=
  [COLUMN_TOTAL_ROOMS; COLUMN_POPULATION; COLUMN_HOUSEHOLDS; COLUMN_TOTAL_BEDROOM].

(** Defaults of the keyword arguments of [__init__]. *)
Definition default_add_bedrooms_per_room : bool := true.
Definition default_total_rooms_ix : Z := 3.
Definition default_population_ix : Z := 5.
Definition default_households_ix : Z := 6.
Definition default_total_bedrooms_ix : Z := 4.

(** [__init__]: an argument left out by the caller is [None] here and takes
    its default; [columns] defaults to Python's [None]. *)
Definition __init__
    (add_bedrooms_per_room : option bool)
    (total_rooms_ix population_ix households_ix total_bedrooms_ix : option Z)
    (columns : option (list string)) : result t :=
  let add_bedrooms_per_room := default default_add_bedrooms_per_room add_bedrooms_per_room in
  let total_rooms_ix := default default_total_rooms_ix total_rooms_ix in
  let population_ix := default default_population_ix population_ix in
  let households_ix := default default_households_ix households_ix in
  let total_bedrooms_ix := default default_total_bedrooms_ix total_bedrooms_ix in
  try_except_HousingException (
    match columns with
    | Some names =>
        total_rooms_ix ← list_index COLUMN_TOTAL_ROOMS names;
        population_ix ← list_index COLUMN_POPULATION names;
        households_ix ← list_index COLUMN_HOUSEHOLDS names;
        total_bedrooms_ix ← list_index COLUMN_TOTAL_BEDROOM names;
        Ok (Build columns add_bedrooms_per_room
              (Z.of_nat total_rooms_ix) (Z.of_nat population_ix)
              (Z.of_nat households_ix) (Z.of_nat total_bedrooms_ix))
    | None =>
        Ok (Build columns add_bedrooms_per_room
              total_rooms_ix population_ix households_ix total_bedrooms_ix)
    end).

Definition fit {X : Type} (self : t) (_ : X) : t := self.

Definition transform (self : t) (X : Np.ndarray float) : result (Np.ndarray float) :=
  try_except_HousingException (
    total_rooms ← Np.column X (total_rooms_ix self);
    households ← Np.column X (households_ix self);
    room_per_household ← Np.divide total_rooms households;
    population ← Np.column X (population_ix self);
    households' ← Np.column X (households_ix self);
    population_per_household ← Np.divide population households';
    if add_bedrooms_per_room self then
      total_bedrooms ← Np.column X (total_bedrooms_ix self);
      total_rooms' ← Np.column X (total_rooms_ix self);
      bedrooms_per_room ← Np.divide total_bedrooms total_rooms';
      Np.c_ X [room_per_household; population_per_household; bedrooms_per_room]
    else
      Np.c_ X [room_per_household; population_per_household]).

(** The same call on the interpreter's objects: [x] names the argument, the
    result names the array [np.c_] allocates.  Nothing is assigned into the
    argument; the slices [X[:, i]] and the quotients are temporaries.  A
    reference to something that is not an array fails at the first
    subscript. *)
Definition transform_in (self : t) (x : Heap.loc) (h : gmap Heap.loc (Np.ndarray float)) :
    result Heap.loc * gmap Heap.loc (Np.ndarray float) :=
  match h !! x with
  | Some X =>
      match transform self X with
      | Ok Y => let '(y, h') := Heap.alloc h Y in (Ok y, h')
      | Raise e => (Raise e, h)
      end
  | None => (Raise (HousingException TypeError), h)
  end.

End FeatureGenerator.

(** ** Python strings and POSIX paths *)

Module Str.

(** [s.startswith(p)] *)
Fixpoint startswith (p s : string) : bool :=
  match p, s with
  | EmptyString, _ => true
  | String _ _, EmptyString => false
  | String a p', String b s' => Ascii.eqb a b && startswith p' s'
  end.

(** [s.endswith(p)] for a one-character [p]. *)
Fixpoint endswith_char (c : Ascii.ascii) (s : string) : bool :=
  match s with
  | EmptyString => false
  | String a EmptyString => Ascii.eqb a c
  | String _ rest => endswith_char c rest
  end.

(** [sub in s] *)
Fixpoint contains (sub s : string) : bool :=
  startswith sub s ||
  match s with
  | EmptyString => false
  | String _ rest => contains sub rest
  end.

(** [s.replace(old, new)] for a non-empty [old]: every occurrence of [old],
    found from left to right without overlap, becomes [new].  [skip] counts
    the characters of a replaced occurrence still to pass over. *)
Fixpoint replace_from (old new : string) (skip : nat) (s : string) : string :=
  match s with
  | EmptyString => EmptyString
  | String c rest =>
      match skip with
      | S k => replace_from old new k rest
      | O =>
          if startswith old s
          then new +:+ replace_from old new (String.length old - 1) rest
          else String c (replace_from old new 0 rest)
      end
  end.

Definition replace (old new s : string) : string := replace_from old new 0 s.

End Str.

(** [os.path] on a POSIX system ([posixpath]). *)
Module OsPath.

Definition sep : Ascii.ascii := "/"%char.

Fixpoint has_sep (p : string) : bool :=
  match p with
  | EmptyString => false
  | String c rest => Ascii.eqb c sep || has_sep rest
  end.

(** [os.path.basename(p)]: what follows the last separator. *)
Fixpoint basename (p : string) : string :=
  match p with
  | EmptyString => EmptyString
  | String c rest =>
      if has_sep rest then basename rest
      else if Ascii.eqb c sep then rest
      else p
  end.

(** [os.path.join(a, b)] *)
Definition join (a b : string) : string :=
  if Str.startswith "/" b then b
  else if bool_decide (a = EmptyString) || Str.endswith_char sep a then a +:+ b
  else a +:+ "/" +:+ b.

Fixpoint has_dot (p : string) : bool :=
  match p with
  | EmptyString => false
  | String c rest => Ascii.eqb c "."%char || has_dot rest
  end.

(** The root part of [os.path.splitext(name)] for a name without
    separator: [name] without its extension, the extension starting at the
    last dot unless only dots precede it.  [seen] tells whether a character
    other than a dot has been passed. *)
Fixpoint splitext_root_from (seen : bool) (name : string) : string :=
  match name with
  | EmptyString => EmptyString
  | String c rest =>
      if Ascii.eqb c "."%char && seen && negb (has_dot rest) then EmptyString
      else String c (splitext_root_from (seen || negb (Ascii.eqb c "."%char)) rest)
  end.

Definition splitext_root (name : string) : string := splitext_root_from false name.

End OsPath.

(** ** pandas tables *)

Module Pandas.

(** A value of a table read from a delimited file: a number or a string; a
    missing value is NaN. *)
Inductive cell : Type :=
  | Num (x : float)
  | Str (s : string).

Definition isna (c : cell) : bool :=
  match c with
  | Num x => PrimFloat.is_nan x
  | Str _ => false
  end.

(** Python's [==] on such values. *)
Definition cell_eqb (a b : cell) : bool :=
  match a, b with
  | Num x, Num y => PrimFloat.eqb x y
  | Str s, Str t => String.eqb s t
  | _, _ => false
  end.

(** A [DataFrame]: its columns by label, in order.  Labels are distinct, as
    the reader of the file makes them; a lookup takes the first match. *)
Definition DataFrame : Type := list (string * list cell).

Definition has_column (df : DataFrame) (label : string) : bool :=
  bool_decide (label ∈ df.*1).

(** [df[label]]: a column, [KeyError] for an unknown label. *)
Fixpoint getitem (df : DataFrame) (label : string) : result (list cell) :=
  match df with
  | [] => Raise KeyError
  | (l, c) :: df' => if decide (l = label) then Ok c else getitem df' label
  end.

(** [df.drop(columns=[label], axis=1)]: a new table without that column,
    [KeyError] for an unknown label. *)
Definition drop (df : DataFrame) (label : string) : result DataFrame :=
  if has_column df label
  then Ok (filter (λ lc, lc.1 ≠ label) df)
  else Raise KeyError.

Definition nrows (df : DataFrame) : nat :=
  match df with
  | [] => 0
  | (_, c) :: _ => length c
  end.

(** [np.array(series)] next to a [float64] array in [np.c_]: the numbers
    of the array beside the values of the column. *)
Definition as_cells (X : Np.ndarray float) : Np.ndarray cell :=
  Np.NdArray (Np.ncols X) (fmap (M := list) (fmap (M := list) Num) (Np.rows X)).

End Pandas.

(** ** scikit-learn

    The estimators the component composes.  What the source fixes is
    modelled as it is documented by the library: [Pipeline] and
    [ColumnTransformer] as compositions, [SimpleImputer] with the
    most-frequent strategy and [OneHotEncoder] on the values of the table.
    The estimators that reduce floating-point columns (the median imputer and
    [StandardScaler]) are parameters: see [Library].  The output of the
    encoder, a sparse matrix in the library, is the array of its values. *)

Module Sklearn.
Import Pandas.

(** The two operations of a transformer.  [fit_transform] returns the object
    as fitted together with the output; [transform] reads a fitted object
    and leaves it as it is. *)
Record estimator (T In Out : Type) : Type := Estimator {
  fit_transform : T → In → result (T * Out);
  transform : T → In → result Out
}.
Arguments Estimator {T In Out} fit_transform transform.
Arguments fit_transform {T In Out} _ _ _.
Arguments transform {T In Out} _ _ _.

(** [Pipeline(steps=[s1, s2, s3])]: the steps in sequence, each fed the
    output of the one before. *)
Definition Pipeline {T1 T2 T3 A B C D : Type}
    (s1 : estimator T1 A B) (s2 : estimator T2 B C) (s3 : estimator T3 C D) :
    estimator (T1 * T2 * T3) A D :=
  Estimator
    (λ '(t1, t2, t3) X,
       '(t1', X1) ← fit_transform s1 t1 X;
       '(t2', X2) ← fit_transform s2 t2 X1;
       '(t3', X3) ← fit_transform s3 t3 X2;
       Ok ((t1', t2', t3'), X3))
    (λ '(t1, t2, t3) X,
       X1 ← transform s1 t1 X;
       X2 ← transform s2 t2 X1;
       transform s3 t3 X2).

(** *** SimpleImputer(strategy='most_frequent') *)

(** [statistics_]: per column the fill value, [None] for a column that had
    only missing values at [fit]; the field itself is [None] before [fit]. *)
Record SimpleImputer_most_frequent : Type := MostFrequent {
  statistics_ : option (list (option cell))
}.

(** [x < m] between two values; comparing a number with a string is a
    [TypeError]. *)
Definition cell_ltb (x m : cell) : result bool :=
  match x, m with
  | Num a, Num b => Ok (PrimFloat.ltb a b)
  | Str s, Str t => Ok (String.ltb s t)
  | _, _ => Raise TypeError
  end.

(** [min(values)] of a non-empty sequence, [m] being the first value. *)
Definition cell_min (m : cell) (rest : list cell) : result cell :=
  foldl (λ acc x, m ← acc; lt ← cell_ltb x m; Ok (if lt : bool then x else m)) (Ok m) rest.

Definition count_of (v : cell) (l : list cell) : nat :=
  length (filter (λ c, cell_eqb c v = true) l).

(** The most frequent value among those present, the smallest one in a
    tie; [None] when nothing is present. *)
Definition most_frequent (col : list cell) : result (option cell) :=
  let present := filter (λ c, isna c = false) col in
  let best := max_list ((λ v, count_of v present) <$> present) in
  match filter (λ v, count_of v present = best) present with
  | [] => Ok None
  | m :: rest => Some <$> cell_min m rest
  end.

(** Missing values replaced column by column; a column without fill value
    is left out of the result. *)
Definition impute_column (stat : option cell) (col : list cell) : option (list cell) :=
  (λ fill, (λ c, if isna c then fill else c) <$> col) <$> stat.

Definition impute (stats : list (option cell)) (cols : list (list cell)) : list (list cell) :=
  omap (λ sc : option cell * list cell, impute_column sc.1 sc.2) (zip stats cols).

Definition imputer_fit_transform (self : SimpleImputer_most_frequent) (X : DataFrame) :
    result (SimpleImputer_most_frequent * list (list cell)) :=
  if decide (X = [] ∨ Pandas.nrows X = 0) then Raise ValueError
  else
    stats ← mapM most_frequent X.*2;
    Ok (MostFrequent (Some stats), impute stats X.*2).

Definition imputer_transform (self : SimpleImputer_most_frequent) (X : DataFrame) :
    result (list (list cell)) :=
  match statistics_ self with
  | None => Raise NotFittedError
  | Some stats =>
      if decide (X = [] ∨ Pandas.nrows X = 0) then Raise ValueError
      else if decide (length X = length stats) then Ok (impute stats X.*2)
      else Raise ValueError
  end.

Definition most_frequent_imputer :
    estimator SimpleImputer_most_frequent DataFrame (list (list cell)) :=
  Estimator imputer_fit_transform imputer_transform.

(** *** OneHotEncoder *)

Inductive handle_unknown_policy : Type :=
  | handle_unknown_error
  | handle_unknown_ignore.

(** [categories_]: per column the values seen at [fit], sorted; [None]
    before [fit]. *)
Record OneHotEncoder : Type := Encoder {
  handle_unknown : handle_unknown_policy;
  categories_ : option (list (list cell))
}.

(** [OneHotEncoder(handle_unknown=...)]; the keyword defaults to ['error']. *)
Definition OneHotEncoder_init (handle_unknown : option handle_unknown_policy) : OneHotEncoder :=
  Encoder (default handle_unknown_error handle_unknown) None.

Definition is_num (c : cell) : bool := match c with Num _ => true | Str _ => false end.
Definition is_str (c : cell) : bool := match c with Str _ => true | Num _ => false end.

Definition cell_before (x y : cell) : bool :=
  match x, y with
  | Num a, Num b => PrimFloat.ltb a b
  | Str s, Str t => String.ltb s t
  | _, _ => false
  end.

Fixpoint insert_category (x : cell) (sorted : list cell) : list cell :=
  match sorted with
  | [] => [x]
  | y :: rest =>
      if cell_eqb x y then sorted
      else if cell_before x y then x :: sorted
      else y :: insert_category x rest
  end.

(** The distinct values of a column in increasing order; a column mixing
    numbers and strings is a [TypeError]. *)
Definition categories_of (col : list cell) : result (list cell) :=
  if forallb is_num col || forallb is_str col
  then Ok (foldr insert_category [] col)
  else Raise TypeError.

Definition one_hot (cats : list cell) (v : cell) : list float :=
  (λ c, if cell_eqb v c then 1%float else 0%float) <$> cats.

(** One row of indicators per value; a value outside the categories is a
    [ValueError] under ['error'] and a row of zeros under ['ignore']. *)
Definition encode_column (policy : handle_unknown_policy) (cats col : list cell) :
    result (list (list float)) :=
  mapM (λ v,
          if existsb (cell_eqb v) cats then Ok (one_hot cats v)
          else match policy with
               | handle_unknown_error => Raise ValueError
               | handle_unknown_ignore => Ok (one_hot cats v)
               end) col.

(** Blocks of rows side by side. *)
Definition hstack_rows {A} (n : nat) (blocks : list (list (list A))) : list (list A) :=
  foldl (zip_with app) (replicate n []) blocks.

Definition encode (policy : handle_unknown_policy) (cats : list (list cell))
    (X : list (list cell)) : result (Np.ndarray float) :=
  match X with
  | [] => Raise ValueError
  | col :: _ =>
      if decide (length X = length cats) then
        blocks ← mapM (λ cx : list cell * list cell, encode_column policy cx.1 cx.2)
                      (zip cats X);
        Ok (Np.NdArray (sum_list (length <$> cats)) (hstack_rows (length col) blocks))
      else Raise ValueError
  end.

Definition encoder_fit_transform (self : OneHotEncoder) (X : list (list cell)) :
    result (OneHotEncoder * Np.ndarray float) :=
  cats ← mapM categories_of X;
  Y ← encode (handle_unknown self) cats X;
  Ok (Encoder (handle_unknown self) (Some cats), Y).

Definition encoder_transform (self : OneHotEncoder) (X : list (list cell)) :
    result (Np.ndarray float) :=
  match categories_ self with
  | None => Raise NotFittedError
  | Some cats => encode (handle_unknown self) cats X
  end.

Definition one_hot_encoder : estimator OneHotEncoder (list (list cell)) (Np.ndarray float) :=
  Estimator encoder_fit_transform encoder_transform.

(** *** The estimators taken as parameters

    [SimpleImputer(strategy='median')] and [StandardScaler(with_mean=...)]:
    their objects, how they are built and their two operations. *)
Record Library : Type := {
  MedianImputer : Type;
  StandardScaler : Type;
  SimpleImputer_median : MedianImputer;
  median_imputer : estimator MedianImputer DataFrame (Np.ndarray float);
  StandardScaler_init : bool → StandardScaler;
  standard_scaler : estimator StandardScaler (Np.ndarray float) (Np.ndarray float)
}.

(** *** ColumnTransformer *)

(** [transformers]: the two entries as given to the constructor, each with
    its column labels; [transformers_]: the fitted ones, [None] before
    [fit]. *)
Record ColumnTransformer (T1 T2 : Type) : Type := Columns {
  transformers : (T1 * list string) * (T2 * list string);
  transformers_ : option (T1 * T2)
}.
Arguments Columns {T1 T2} transformers transformers_.
Arguments transformers {T1 T2} _.
Arguments transformers_ {T1 T2} _.

(** The columns of [df] with the given labels, in the order of the labels;
    a label that is not in the table is a [ValueError]. *)
Definition select (df : DataFrame) (labels : list string) : result DataFrame :=
  mapM (λ l, match getitem df l with
             | Ok c => Ok (l, c)
             | Raise _ => Raise ValueError
             end) labels.

(** [np.hstack] of the outputs; no output at all gives an array without
    columns. *)
Definition hstack (n : nat) (Xs : list (Np.ndarray float)) : result (Np.ndarray float) :=
  match Xs with
  | [] => Ok (Np.NdArray 0 (replicate n []))
  | X :: _ =>
      if forallb (λ X', Nat.eqb (Np.nrows X') (Np.nrows X)) Xs
      then Ok (Np.NdArray (sum_list (Np.ncols <$> Xs))
                 (hstack_rows (Np.nrows X) (Np.rows <$> Xs)))
      else Raise ValueError
  end.

(** One entry of the column transformer; an entry without columns is
    skipped. *)
Definition fit_transform_one {T} (e : estimator T DataFrame (Np.ndarray float))
    (t : T) (labels : list string) (df : DataFrame) : result (T * option (Np.ndarray float)) :=
  match labels with
  | [] => Ok (t, None)
  | _ => X ← select df labels; '(t', Y) ← fit_transform e t X; Ok (t', Some Y)
  end.

Definition transform_one {T} (e : estimator T DataFrame (Np.ndarray float))
    (t : T) (labels : list string) (df : DataFrame) : result (option (Np.ndarray float)) :=
  match labels with
  | [] => Ok None
  | _ => X ← select df labels; Some <$> transform e t X
  end.

Definition ColumnTransformer_estimator {T1 T2 : Type}
    (e1 : estimator T1 DataFrame (Np.ndarray float))
    (e2 : estimator T2 DataFrame (Np.ndarray float)) :
    estimator (ColumnTransformer T1 T2) DataFrame (Np.ndarray float) :=
  Estimator
    (λ self df,
       let '((t1, labels1), (t2, labels2)) := transformers self in
       '(t1', Y1) ← fit_transform_one e1 t1 labels1 df;
       '(t2', Y2) ← fit_transform_one e2 t2 labels2 df;
       Y ← hstack (Pandas.nrows df) (omap id [Y1; Y2]);
       Ok (Columns (transformers self) (Some (t1', t2')), Y))
    (λ self df,
       let '((_, labels1), (_, labels2)) := transformers self in
       match transformers_ self with
       | None => Raise NotFittedError
       | Some (t1, t2) =>
           Y1 ← transform_one e1 t1 labels1 df;
           Y2 ← transform_one e2 t2 labels2 df;
           hstack (Pandas.nrows df) (omap id [Y1; Y2])
       end).

End Sklearn.

(** ** Housing.util.util and Housing.entity *)

Module Util.
Import Pandas.

(** The schema file as [read_yaml_file] returns it, restricted to the three
    entries the component reads; an entry is [None] when its key
    ([NUMERICAL_COLUMN_KEY], [CATEGORICAL_COLUMN_KEY], [TARGET_COLUMN_KEY]) is
    not in the file. *)
Record Schema : Type := {
  numerical_columns : option (list string);
  categorical_columns : option (list string);
  target_column : option string
}.

(** [schema[KEY]] *)
Definition schema_getitem {A} (entry : option A) : result A :=
  match entry with
  | Some v => Ok v
  | None => Raise KeyError
  end.

(** Modelled from the spec: the helpers of [Housing.util.util] are not part
    of the sources at hand.  They are taken with the contracts the
    specification gives them: [read_yaml_file] and [load_data] read a file
    and return its content or raise; [save_numpy_array_data] and
    [save_object] write a file or raise.  [Obj] is the type of the object
    [save_object] is given. *)
Record World (Obj : Type) : Type := {
  read_yaml_file : string → result Schema;
  load_data : string → string → result DataFrame;
  save_numpy_array_data : string → Np.ndarray cell → result ();
  save_object : string → Obj → result ()
}.
Arguments read_yaml_file {Obj} _ _.
Arguments load_data {Obj} _ _ _.
Arguments save_numpy_array_data {Obj} _ _ _.
Arguments save_object {Obj} _ _ _.

(** What a run has written, in the order of the writes. *)
Inductive written (Obj : Type) : Type :=
  | SavedArray (file_path : string) (array : Np.ndarray cell)
  | SavedObject (file_path : string) (obj : Obj).
Arguments SavedArray {Obj} file_path array.
Arguments SavedObject {Obj} file_path obj.

(** A computation that may raise and writes files on its way. *)
Definition IO (Obj A : Type) : Type := result A * list (written Obj).

#[export] Instance io_bind {Obj} : MBind (IO Obj) := λ A B f m,
  match m with
  | (Ok a, log) => let '(r, log') := f a in (r, log ++ log')
  | (Raise e, log) => (Raise e, log)
  end.

(** A step that writes nothing. *)
Definition pure {Obj A} (r : result A) : IO Obj A := (r, []).

(** A step that writes [w] when it succeeds. *)
Definition writing {Obj} (w : written Obj) (r : result ()) : IO Obj () :=
  match r with
  | Ok _ => (Ok (), [w])
  | Raise e => (Raise e, [])
  end.

(** [try: body except Exception as e: raise HousingException(e, sys) from e];
    what was written before the exception stays written. *)
Definition io_try_except_HousingException {Obj A} (body : IO Obj A) : IO Obj A :=
  (try_except_HousingException body.1, body.2).

End Util.

Module Entity.

(** Modelled from the spec: the records of [Housing.entity] are not part of
    the sources at hand; they are taken with the fields the component reads
    or sets. *)
Record DataTransformationConfig : Type := {
  transformed_train_dir : string;
  transformed_test_dir : string;
  preprocessed_object_file_path : string
}.

Record DataIngestionArtifact : Type := {
  train_file_path : string;
  test_file_path : string
}.

Record DataValidationArtifact : Type := {
  schema_file_path : string
}.

Record DataTransformationArtifact : Type := {
  transformed_train_file_path : string;
  transformed_test_file_path : string;
  preprocessing_object_file_path : string;
  is_transformed : bool;
  message : string
}.

End Entity.

(** ** class DataTransformation *)

Module DataTransformation.
Import Pandas Sklearn Util Entity.

Record t : Type := Build {
  data_transformation_config : DataTransformationConfig;
  data_ingestion_artifact : DataIngestionArtifact;
  data_validation_artifact : DataValidationArtifact
}.

Definition __init__ (data_transformation_config : DataTransformationConfig)
    (data_ingestion_artifact : DataIngestionArtifact)
    (data_validation_artifact : DataValidationArtifact) : result t :=
  try_except_HousingException (
    Ok (Build data_transformation_config data_ingestion_artifact data_validation_artifact)).

(** [FeatureGenerator] as a pipeline step: [fit_transform] is the one it
    inherits, [fit] followed by [transform]. *)
Definition feature_generator : estimator FeatureGenerator.t (Np.ndarray float) (Np.ndarray float) :=
  Estimator
    (λ self X,
       let self := FeatureGenerator.fit self X in
       Y ← FeatureGenerator.transform self X;
       Ok (self, Y))
    FeatureGenerator.transform.

Section Preprocessing.
Context (lib : Library).

(** The objects of the two pipelines and of the column transformer. *)
Definition num_pipeline_t : Type :=
  MedianImputer lib * FeatureGenerator.t * StandardScaler lib.
Definition cat_pipeline_t : Type :=
  SimpleImputer_most_frequent * OneHotEncoder * StandardScaler lib.
Definition preprocessing_t : Type :=
  ColumnTransformer num_pipeline_t cat_pipeline_t.

Definition num_pipeline : estimator num_pipeline_t DataFrame (Np.ndarray float) :=
  Pipeline (median_imputer lib) feature_generator (standard_scaler lib).

Definition cat_pipeline : estimator cat_pipeline_t DataFrame (Np.ndarray float) :=
  Pipeline most_frequent_imputer one_hot_encoder (standard_scaler lib).

Definition preprocessing : estimator preprocessing_t DataFrame (Np.ndarray float) :=
  ColumnTransformer_estimator num_pipeline cat_pipeline.

Context (world : World preprocessing_t).

Definition get_data_transformer_object (self : t) : result preprocessing_t :=
  try_except_HousingException (
    let schema_file_path := schema_file_path (data_validation_artifact self) in
    dataset_schema ← read_yaml_file world schema_file_path;
    numerical_columns ← schema_getitem (numerical_columns dataset_schema);
    categorical_columns ← schema_getitem (categorical_columns dataset_schema);
    generator ← FeatureGenerator.__init__ (Some true) None None None None
                  (Some numerical_columns);
    let num_pipeline :=
      (SimpleImputer_median lib, generator, StandardScaler_init lib true) in
    let cat_pipeline :=
      (MostFrequent None, OneHotEncoder_init None, StandardScaler_init lib false) in
    let preprocessing :=
      Columns ((num_pipeline, numerical_columns), (cat_pipeline, categorical_columns)) None in
    Ok preprocessing).

(** The file name of a transformed array: the base name of the source with
    [.csv] replaced by [.npz]. *)
Definition transformed_file_name (source_file_path : string) : string :=
  Str.replace ".csv" ".npz" (OsPath.basename source_file_path).

Definition initiate_data_tranformation (self : t) :
    IO preprocessing_t DataTransformationArtifact :=
  io_try_except_HousingException (
    preprocessing_obj ← pure (get_data_transformer_object self);
    let train_file_path := train_file_path (data_ingestion_artifact self) in
    let test_file_path := test_file_path (data_ingestion_artifact self) in
    let schema_path := schema_file_path (data_validation_artifact self) in
    train_df ← pure (load_data world train_file_path schema_path);
    test_df ← pure (load_data world test_file_path schema_path);
    schema ← pure (read_yaml_file world schema_path);
    target_colname ← pure (schema_getitem (target_column schema));
    input_feauture_train ← pure (Pandas.drop train_df target_colname);
    target_feature_train ← pure (Pandas.getitem train_df target_colname);
    input_feauture_test ← pure (Pandas.drop test_df target_colname);
    target_feature_test ← pure (Pandas.getitem test_df target_colname);
    '(preprocessing_obj, input_feature_train_arr) ←
      pure (fit_transform preprocessing preprocessing_obj input_feauture_train);
    input_feature_test_arr ←
      pure (transform preprocessing preprocessing_obj input_feauture_test);
    train_arr ← pure (Np.c_ (as_cells input_feature_train_arr) [target_feature_train]);
    test_arr ← pure (Np.c_ (as_cells input_feature_test_arr) [target_feature_test]);
    let train_dir := transformed_train_dir (data_transformation_config self) in
    let test_dir := transformed_test_dir (data_transformation_config self) in
    let file_path_train_name := transformed_file_name train_file_path in
    let file_path_test_name := transformed_file_name test_file_path in
    let file_path_train := OsPath.join train_dir file_path_train_name in
    let file_path_test := OsPath.join test_dir file_path_test_name in
    _ ← writing (SavedArray file_path_train train_arr)
          (save_numpy_array_data world file_path_train train_arr);
    _ ← writing (SavedArray file_path_test test_arr)
          (save_numpy_array_data world file_path_test test_arr);
    let preprocessing_object_file_path :=
      preprocessed_object_file_path (data_transformation_config self) in
    _ ← writing (SavedObject preprocessing_object_file_path preprocessing_obj)
          (save_object world preprocessing_object_file_path preprocessing_obj);
    let data_transformation_artifact :=
      {| transformed_train_file_path := file_path_train;
         transformed_test_file_path := file_path_test;
         preprocessing_object_file_path := preprocessing_object_file_path;
         is_transformed := true;
         message := "Data transformation completed" |} in
    pure (Ok data_transformation_artifact)).

End Preprocessing.

End DataTransformation.

(** ** Notions used in the statements *)

Import Np.

#[global] Existing Instance Util.io_bind.

(** The columns [transform] appends to a row, given the positions of the four
    source columns. *)
Definition derived_features (bedrooms : bool) (tr pop hh tb : nat) (r : list float) : list float :=
  [PrimFloat.div (r !!! tr) (r !!! hh); PrimFloat.div (r !!! pop) (r !!! hh)]
  ++ (if bedrooms then [PrimFloat.div (r !!! tb) (r !!! tr)] else []).

(** Which positions [transform] needs: the bedrooms index only with the flag. *)
Definition indices_in_range (fg : FeatureGenerator.t) (n : nat) (tr pop hh tb : nat) : Prop :=
  axis_index n (FeatureGenerator.total_rooms_ix fg) = Ok tr ∧
  axis_index n (FeatureGenerator.population_ix fg) = Ok pop ∧
  axis_index n (FeatureGenerator.households_ix fg) = Ok hh ∧
  (FeatureGenerator.add_bedrooms_per_room fg = true →
   axis_index n (FeatureGenerator.total_bedrooms_ix fg) = Ok tb).

(** Row [i] of [Y] carries, right after the [ncols X] columns of [X], the
    ratios of the entries of row [i] of [X] found at positions [tr]
    (total rooms), [pop] (population), [hh] (households) and, with the flag,
    [tb] (total bedrooms). *)
Definition ratio_row (bedrooms : bool) (X Y : ndarray float) (tr pop hh tb i : nat) : Prop :=
  ∃ total_rooms population households,
    entry X i tr = Some total_rooms ∧
    entry X i pop = Some population ∧
    entry X i hh = Some households ∧
    entry Y i (ncols X) = Some (PrimFloat.div total_rooms households) ∧
    entry Y i (ncols X + 1) = Some (PrimFloat.div population households) ∧
    (bedrooms = true →
     ∃ total_bedrooms,
       entry X i tb = Some total_bedrooms ∧
       entry Y i (ncols X + 2) = Some (PrimFloat.div total_bedrooms total_rooms)).

(** [z] is the first position of [x] in [l]. *)
Definition first_position (l : list string) (x : string) (z : Z) : Prop :=
  ∃ i, z = Z.of_nat i ∧ l !! i = Some x ∧ ∀ j, j < i → l !! j ≠ Some x.

(** The file name as the specification words it: the base name of the
    source with its extension replaced by [.npz]. *)
Definition extension_replaced (source_file_path : string) : string :=
  OsPath.splitext_root (OsPath.basename source_file_path) +:+ ".npz".

(** *** Failures inside an operation *)

(** [r] raised [cause], or it returned and [rest] holds of its value. *)
Definition raised_or {A} (r : result A) (cause : exn) (rest : A → Prop) : Prop :=
  r = Raise cause ∨ ∃ a, r = Ok a ∧ rest a.

(** [cause] was raised by a lookup of [FeatureGenerator.__init__], the
    lookups before it having returned. *)
Definition raised_in_init (names : list string) (cause : exn) : Prop :=
  raised_or (list_index Constant.COLUMN_TOTAL_ROOMS names) cause (λ _,
  raised_or (list_index Constant.COLUMN_POPULATION names) cause (λ _,
  raised_or (list_index Constant.COLUMN_HOUSEHOLDS names) cause (λ _,
  raised_or (list_index Constant.COLUMN_TOTAL_BEDROOM names) cause (λ _,
  False)))).

(** [cause] was raised by a subscript, a division or the concatenation of
    [FeatureGenerator.transform], what comes before it having returned. *)
Definition raised_in_transform (fg : FeatureGenerator.t) (X : ndarray float) (cause : exn) : Prop :=
  raised_or (column X (FeatureGenerator.total_rooms_ix fg)) cause (λ total_rooms,
  raised_or (column X (FeatureGenerator.households_ix fg)) cause (λ households,
  raised_or (divide total_rooms households) cause (λ room_per_household,
  raised_or (column X (FeatureGenerator.population_ix fg)) cause (λ population,
  raised_or (column X (FeatureGenerator.households_ix fg)) cause (λ households',
  raised_or (divide population households') cause (λ population_per_household,
  if FeatureGenerator.add_bedrooms_per_room fg then
    raised_or (column X (FeatureGenerator.total_bedrooms_ix fg)) cause (λ total_bedrooms,
    raised_or (column X (FeatureGenerator.total_rooms_ix fg)) cause (λ total_rooms',
    raised_or (divide total_bedrooms total_rooms') cause (λ bedrooms_per_room,
    raised_or (c_ X [room_per_household; population_per_household; bedrooms_per_room])
      cause (λ _, False))))
  else
    raised_or (c_ X [room_per_household; population_per_household]) cause (λ _,
    False))))))).

(** *** Runs of [initiate_data_tranformation] *)

Section Runs.
Import Pandas Sklearn Util Entity DataTransformation.
Context (lib : Library).
Implicit Types world : World (preprocessing_t lib).
Implicit Types self : DataTransformation.t.

Definition train_path self : string := train_file_path (data_ingestion_artifact self).
Definition test_path self : string := test_file_path (data_ingestion_artifact self).
Definition schema_path self : string := schema_file_path (data_validation_artifact self).
Definition file_path_train self : string :=
  OsPath.join (transformed_train_dir (data_transformation_config self))
    (transformed_file_name (train_path self)).
Definition file_path_test self : string :=
  OsPath.join (transformed_test_dir (data_transformation_config self))
    (transformed_file_name (test_path self)).
Definition object_path self : string :=
  preprocessed_object_file_path (data_transformation_config self).

(** Every step of the run returned, with these values; [log] is what the
    run wrote and [art] what it returned. *)
Definition every_step_returned world self
    (art : DataTransformationArtifact) (log : list (written (preprocessing_t lib))) : Prop :=
  ∃ obj train_df test_df schema target X_train y_train X_test y_test
    obj' A_train A_test train_arr test_arr,
    get_data_transformer_object lib world self = Ok obj ∧
    load_data world (train_path self) (schema_path self) = Ok train_df ∧
    load_data world (test_path self) (schema_path self) = Ok test_df ∧
    read_yaml_file world (schema_path self) = Ok schema ∧
    schema_getitem (target_column schema) = Ok target ∧
    Pandas.drop train_df target = Ok X_train ∧
    Pandas.getitem train_df target = Ok y_train ∧
    Pandas.drop test_df target = Ok X_test ∧
    Pandas.getitem test_df target = Ok y_test ∧
    fit_transform (preprocessing lib) obj X_train = Ok (obj', A_train) ∧
    transform (preprocessing lib) obj' X_test = Ok A_test ∧
    Np.c_ (as_cells A_train) [y_train] = Ok train_arr ∧
    Np.c_ (as_cells A_test) [y_test] = Ok test_arr ∧
    save_numpy_array_data world (file_path_train self) train_arr = Ok () ∧
    save_numpy_array_data world (file_path_test self) test_arr = Ok () ∧
    save_object world (object_path self) obj' = Ok () ∧
    log = [SavedArray (file_path_train self) train_arr;
           SavedArray (file_path_test self) test_arr;
           SavedObject (object_path self) obj'] ∧
    art = {| transformed_train_file_path := file_path_train self;
             transformed_test_file_path := file_path_test self;
             preprocessing_object_file_path := object_path self;
             is_transformed := true;
             message := "Data transformation completed" |}.

(** [cause] was raised by a step of [get_data_transformer_object], the
    steps before it having returned. *)
Definition raised_in_get_object world self (cause : exn) : Prop :=
  raised_or (read_yaml_file world (schema_path self)) cause (λ dataset_schema,
  raised_or (schema_getitem (numerical_columns dataset_schema)) cause (λ numerical_columns,
  raised_or (schema_getitem (categorical_columns dataset_schema)) cause (λ _,
  raised_or (FeatureGenerator.__init__ (Some true) None None None None
               (Some numerical_columns)) cause (λ _,
  False)))).

(** [cause] was raised by a step of the run, the steps before it having
    returned. *)
Definition raised_by_a_step world self (cause : exn) : Prop :=
  raised_or (get_data_transformer_object lib world self) cause (λ obj,
  raised_or (load_data world (train_path self) (schema_path self)) cause (λ train_df,
  raised_or (load_data world (test_path self) (schema_path self)) cause (λ test_df,
  raised_or (read_yaml_file world (schema_path self)) cause (λ schema,
  raised_or (schema_getitem (target_column schema)) cause (λ target,
  raised_or (Pandas.drop train_df target) cause (λ X_train,
  raised_or (Pandas.getitem train_df target) cause (λ y_train,
  raised_or (Pandas.drop test_df target) cause (λ X_test,
  raised_or (Pandas.getitem test_df target) cause (λ y_test,
  raised_or (fit_transform (preprocessing lib) obj X_train) cause (λ fitted,
  raised_or (transform (preprocessing lib) fitted.1 X_test) cause (λ A_test,
  raised_or (Np.c_ (as_cells fitted.2) [y_train]) cause (λ train_arr,
  raised_or (Np.c_ (as_cells A_test) [y_test]) cause (λ test_arr,
  raised_or (save_numpy_array_data world (file_path_train self) train_arr) cause (λ _,
  raised_or (save_numpy_array_data world (file_path_test self) test_arr) cause (λ _,
  raised_or (save_object world (object_path self) fitted.1) cause (λ _,
  False)))))))))))))))).

(** The part of a run that comes before the test table is used: the fitted
    object and the training array. *)
Definition train_stage world self : result (preprocessing_t lib * Np.ndarray cell) :=
  obj ← get_data_transformer_object lib world self;
  train_df ← load_data world (train_path self) (schema_path self);
  schema ← read_yaml_file world (schema_path self);
  target ← schema_getitem (target_column schema);
  X_train ← Pandas.drop train_df target;
  y_train ← Pandas.getitem train_df target;
  '(obj', A_train) ← fit_transform (preprocessing lib) obj X_train;
  train_arr ← Np.c_ (as_cells A_train) [y_train];
  Ok (obj', train_arr).

(** In [world] the object [obj'] and the array [A_train] are what
    [fit_transform] returns on the input features of the training table, and
    [A_test] is what [transform] returns for [obj'] on the input features of
    the test table. *)
Definition fitted_on_train_applied_to_test world self
    (obj' : preprocessing_t lib) (A_train A_test : Np.ndarray float) : Prop :=
  ∃ obj train_df test_df schema target X_train X_test,
    get_data_transformer_object lib world self = Ok obj ∧
    load_data world (train_path self) (schema_path self) = Ok train_df ∧
    load_data world (test_path self) (schema_path self) = Ok test_df ∧
    read_yaml_file world (schema_path self) = Ok schema ∧
    schema_getitem (target_column schema) = Ok target ∧
    Pandas.drop train_df target = Ok X_train ∧
    Pandas.drop test_df target = Ok X_test ∧
    fit_transform (preprocessing lib) obj X_train = Ok (obj', A_train) ∧
    transform (preprocessing lib) obj' X_test = Ok A_test.

(** Two worlds that differ at most in the table behind the test path. *)
Definition differ_only_in_test_table self (w1 w2 : World (preprocessing_t lib)) : Prop :=
  train_path self ≠ test_path self ∧
  (∀ p, read_yaml_file w1 p = read_yaml_file w2 p) ∧
  (∀ p s, p ≠ test_path self → load_data w1 p s = load_data w2 p s) ∧
  (∀ p a, save_numpy_array_data w1 p a = save_numpy_array_data w2 p a) ∧
  (∀ p o, save_object w1 p o = save_object w2 p o).

End Runs.

(** The first write of a run is the training array, the third the fitted
    object. *)
Definition train_array_written {Obj} (log : list (Util.written Obj)) :
    option (string * Np.ndarray Pandas.cell) :=
  match log with
  | Util.SavedArray p a :: _ => Some (p, a)
  | _ => None
  end.

Definition object_written {Obj} (log : list (Util.written Obj)) : option (string * Obj) :=
  match log with
  | _ :: _ :: Util.SavedObject p o :: _ => Some (p, o)
  | _ => None
  end.

(** The labels the column transformer routes to the categorical pipeline,
    that is to the one-hot encoder. *)
Definition one_hot_columns {T1 T2} (obj : Sklearn.ColumnTransformer T1 T2) : list string :=
  (Sklearn.transformers obj).2.2.

(** *** Parts of the column transformer *)

(** The labels routed to the numeric pipeline and the generator that
    pipeline was built with. *)
Definition numeric_columns {T1 T2} (obj : Sklearn.ColumnTransformer T1 T2) : list string :=
  (Sklearn.transformers obj).1.2.

Definition generator_of {I S T2}
    (obj : Sklearn.ColumnTransformer (I * FeatureGenerator.t * S) T2) : FeatureGenerator.t :=
  (Sklearn.transformers obj).1.1.1.2.

(** *** The target column beside the features *)

(** [arr] is [A] with the values [y] as one more column on the right. *)
Definition target_appended (A : ndarray float) (y : list Pandas.cell)
    (arr : ndarray Pandas.cell) : Prop :=
  ncols arr = ncols A + 1 ∧
  nrows arr = nrows A ∧
  length y = nrows A ∧
  ∀ i r v, rows A !! i = Some r → y !! i = Some v →
           rows arr !! i = Some ((Pandas.Num <$> r) ++ [v]).

(** [y] is the target column of the table behind [path]: the column the
    schema names under its target key. *)
Definition target_of {Obj} (world : Util.World Obj) (self : DataTransformation.t)
    (path : string) (y : list Pandas.cell) : Prop :=
  ∃ df schema target,
    Util.load_data world path (schema_path self) = Ok df ∧
    Util.read_yaml_file world (schema_path self) = Ok schema ∧
    Util.target_column schema = Some target ∧
    Pandas.getitem df target = Ok y.

(** ** Sample data

    Three districts in the column order of the housing table: longitude,
    latitude, housing median age, total rooms, total bedrooms, population,
    households.  The generator is the one [FeatureGenerator()] builds, with
    the default positions 3, 5, 6 and 4. *)

Definition sample_generator : FeatureGenerator.t :=
  FeatureGenerator.Build None true 3 5 6 4.

Definition sample_X : Np.ndarray float :=
  Np.NdArray 7
    [ [(-122.25)%float; 37.875%float; 41%float; 880%float; 129%float; 322%float; 126%float];
      [(-122.25)%float; 37.75%float; 21%float; 7099%float; 1106%float; 2401%float; 1138%float];
      [(-122.5)%float; 37.5%float; 52%float; 1467%float; 190%float; 496%float; 177%float] ].

(** Numeric columns of the housing schema, in the order the end-to-end
    scenario of the specification lists them. *)
Definition sample_numerical_columns : list string :=
  ["total_rooms"; "total_bedrooms"; "population"; "households"; "median_income"].

(** The same table with an empty district: no household in the second row,
    neither household nor room in the third. *)
Definition sample_X_empty_district : Np.ndarray float :=
  Np.NdArray 7
    [ [(-122.25)%float; 37.875%float; 41%float; 880%float; 129%float; 322%float; 126%float];
      [(-122.25)%float; 37.75%float; 21%float; 7099%float; 1106%float; 2401%float; 0%float];
      [(-122.5)%float; 37.5%float; 52%float; 0%float; 0%float; 0%float; 0%float] ].

(** ** A sample run

    A schema, a training table of three districts and a test table of two,
    in the files of a small world, and a library instance to evaluate with.
    The instance stands for the estimators that are parameters of the
    embedding: its imputer turns the table into an array without filling
    anything and its scaler returns the values as they are.  Every
    statement below is proved for all instances; this one only serves to run
    the component on the sample. *)

Definition to_float (c : Pandas.cell) : result float :=
  match c with
  | Pandas.Num x => Ok x
  | Pandas.Str _ => Raise ValueError
  end.

Definition frame_to_array (df : Pandas.DataFrame) : result (Np.ndarray float) :=
  cols ← mapM (mapM to_float) df.*2;
  Ok (Np.NdArray (length cols)
        (Sklearn.hstack_rows (Pandas.nrows df) (fmap (M := list) (λ x, [x]) <$> cols))).

Definition sample_library : Sklearn.Library := {|
  Sklearn.MedianImputer := ();
  Sklearn.StandardScaler := bool;
  Sklearn.SimpleImputer_median := ();
  Sklearn.median_imputer :=
    Sklearn.Estimator (λ t df, X ← frame_to_array df; Ok (t, X)) (λ _ df, frame_to_array df);
  Sklearn.StandardScaler_init := id;
  Sklearn.standard_scaler := Sklearn.Estimator (λ t X, Ok (t, X)) (λ _ X, Ok X)
|}.

Definition sample_schema : Util.Schema := {|
  Util.numerical_columns := Some sample_numerical_columns;
  Util.categorical_columns := Some ["ocean_proximity"];
  Util.target_column := Some "median_house_value"
|}.

Definition sample_train : Pandas.DataFrame :=
  [ ("total_rooms", Pandas.Num <$> [880%float; 7099%float; 1467%float]);
    ("total_bedrooms", Pandas.Num <$> [129%float; 1106%float; 190%float]);
    ("population", Pandas.Num <$> [322%float; 2401%float; 496%float]);
    ("households", Pandas.Num <$> [126%float; 1138%float; 177%float]);
    ("median_income", Pandas.Num <$> [8.5%float; 8.25%float; 7.25%float]);
    ("ocean_proximity", Pandas.Str <$> ["NEAR BAY"; "INLAND"; "NEAR BAY"]);
    ("median_house_value", Pandas.Num <$> [452600%float; 358500%float; 352100%float]) ].

Definition sample_test : Pandas.DataFrame :=
  [ ("total_rooms", Pandas.Num <$> [1274%float; 1627%float]);
    ("total_bedrooms", Pandas.Num <$> [235%float; 280%float]);
    ("population", Pandas.Num <$> [558%float; 565%float]);
    ("households", Pandas.Num <$> [219%float; 259%float]);
    ("median_income", Pandas.Num <$> [5.5%float; 3.75%float]);
    ("ocean_proximity", Pandas.Str <$> ["INLAND"; "NEAR BAY"]);
    ("median_house_value", Pandas.Num <$> [341300%float; 342200%float]) ].

(** A test table with a category the training table does not have. *)
Definition sample_test_unseen : Pandas.DataFrame :=
  [ ("total_rooms", Pandas.Num <$> [1274%float; 1627%float]);
    ("total_bedrooms", Pandas.Num <$> [235%float; 280%float]);
    ("population", Pandas.Num <$> [558%float; 565%float]);
    ("households", Pandas.Num <$> [219%float; 259%float]);
    ("median_income", Pandas.Num <$> [5.5%float; 3.75%float]);
    ("ocean_proximity", Pandas.Str <$> ["INLAND"; "ISLAND"]);
    ("median_house_value", Pandas.Num <$> [341300%float; 342200%float]) ].

(** The files of the sample world; every write succeeds. *)
Definition sample_world_with (test : Pandas.DataFrame) :
    Util.World (DataTransformation.preprocessing_t sample_library) := {|
  Util.read_yaml_file p :=
    if decide (p = "config/schema.yaml") then Ok sample_schema
    else Raise (Exc "FileNotFoundError");
  Util.load_data p _ :=
    if decide (p = "artifact/ingested_data/train/housing.csv") then Ok sample_train
    else if decide (p = "artifact/ingested_data/test/housing.csv") then Ok test
    else Raise (Exc "FileNotFoundError");
  Util.save_numpy_array_data _ _ := Ok ();
  Util.save_object _ _ := Ok ()
|}.

Definition sample_world := sample_world_with sample_test.

Definition sample_transformation : DataTransformation.t :=
  DataTransformation.Build
    {| Entity.transformed_train_dir := "artifact/transformed_data/train";
       Entity.transformed_test_dir := "artifact/transformed_data/test";
       Entity.preprocessed_object_file_path := "artifact/preprocessed/preprocessed.pkl" |}
    {| Entity.train_file_path := "artifact/ingested_data/train/housing.csv";
       Entity.test_file_path := "artifact/ingested_data/test/housing.csv" |}
    {| Entity.schema_file_path := "config/schema.yaml" |}.

(** What the sample run returns. *)
Definition sample_artifact : Entity.DataTransformationArtifact := {|
  Entity.transformed_train_file_path := "artifact/transformed_data/train/housing.npz";
  Entity.transformed_test_file_path := "artifact/transformed_data/test/housing.npz";
  Entity.preprocessing_object_file_path := "artifact/preprocessed/preprocessed.pkl";
  Entity.is_transformed := true;
  Entity.message := "Data transformation completed"
|}.

(** The input features of the sample tables: the tables without the target
    column. *)
Definition sample_train_inputs : Pandas.DataFrame :=
  filter (λ lc, lc.1 ≠ "median_house_value") sample_train.

Definition sample_test_unseen_inputs : Pandas.DataFrame :=
  filter (λ lc, lc.1 ≠ "median_house_value") sample_test_unseen.

(** Another test table, for a second run. *)
Definition sample_test_other : Pandas.DataFrame :=
  [ ("total_rooms", Pandas.Num <$> [919%float]);
    ("total_bedrooms", Pandas.Num <$> [213%float]);
    ("population", Pandas.Num <$> [413%float]);
    ("households", Pandas.Num <$> [193%float]);
    ("median_income", Pandas.Num <$> [4.0%float]);
    ("ocean_proximity", Pandas.Str <$> ["NEAR BAY"]);
    ("median_house_value", Pandas.Num <$> [269700%float]) ].

(** ** More sample data *)

(** A matrix too narrow for the default positions of the generator. *)
Definition sample_X_narrow : Np.ndarray float :=
  Np.NdArray 2 [ [880%float; 126%float]; [7099%float; 1138%float] ].

(** The numeric columns of the sample training table as a matrix, in the
    order of [sample_numerical_columns]. *)
Definition sample_numeric : Np.ndarray float :=
  Np.NdArray 5
    [ [880%float; 129%float; 322%float; 126%float; 8.5%float];
      [7099%float; 1106%float; 2401%float; 1138%float; 8.25%float];
      [1467%float; 190%float; 496%float; 177%float; 7.25%float] ].

(** The sample table with a district whose number of households is
    missing. *)
Definition sample_X_missing : Np.ndarray float :=
  Np.NdArray 7
    [ [(-122.25)%float; 37.875%float; 41%float; 880%float; 129%float; 322%float; 126%float];
      [(-122.25)%float; 37.75%float; 21%float; 7099%float; 1106%float; 2401%float; PrimFloat.nan] ].

(** A schema whose numeric columns lack [total_bedrooms], and a world with
    that schema file. *)
Definition sample_schema_incomplete : Util.Schema := {|
  Util.numerical_columns := Some ["total_rooms"; "population"; "households"; "median_income"];
  Util.categorical_columns := Some ["ocean_proximity"];
  Util.target_column := Some "median_house_value"
|}.

Definition sample_world_incomplete :
    Util.World (DataTransformation.preprocessing_t sample_library) := {|
  Util.read_yaml_file _ := Ok sample_schema_incomplete;
  Util.load_data := Util.load_data sample_world;
  Util.save_numpy_array_data _ _ := Ok ();
  Util.save_object _ _ := Ok ()
|}.

(** A schema that lists the target among the numeric columns. *)
Definition sample_schema_target_listed : Util.Schema := {|
  Util.numerical_columns := Some (sample_numerical_columns ++ ["median_house_value"]);
  Util.categorical_columns := Some ["ocean_proximity"];
  Util.target_column := Some "median_house_value"
|}.

Definition sample_world_target_listed :
    Util.World (DataTransformation.preprocessing_t sample_library) := {|
  Util.read_yaml_file _ := Ok sample_schema_target_listed;
  Util.load_data := Util.load_data sample_world;
  Util.save_numpy_array_data _ _ := Ok ();
  Util.save_object _ _ := Ok ()
|}.

(** A world in which the directory of the transformed test array cannot be
    written. *)
Definition sample_world_test_dir_readonly :
    Util.World (DataTransformation.preprocessing_t sample_library) := {|
  Util.read_yaml_file := Util.read_yaml_file sample_world;
  Util.load_data := Util.load_data sample_world;
  Util.save_numpy_array_data p _ :=
    if decide (p = "artifact/transformed_data/test/housing.npz")
    then Raise (Exc "PermissionError") else Ok ();
  Util.save_object _ _ := Ok ()
|}.

(** The object the sample run starts from. *)
Definition sample_preprocessing :
    DataTransformation.preprocessing_t sample_library :=
  Sklearn.Columns
    (((), FeatureGenerator.Build (Some sample_numerical_columns) true 0 2 3 1, true,
      sample_numerical_columns),
     (Sklearn.MostFrequent None, Sklearn.OneHotEncoder_init None, false,
      ["ocean_proximity"]))
    None.

(** The input features of the sample training table, and the same with the
    longitude of the districts as one more column. *)
Definition sample_inputs_head : Pandas.DataFrame :=
  [ ("total_rooms", Pandas.Num <$> [880%float; 7099%float; 1467%float]);
    ("total_bedrooms", Pandas.Num <$> [129%float; 1106%float; 190%float]) ].

Definition sample_inputs_tail : Pandas.DataFrame :=
  [ ("population", Pandas.Num <$> [322%float; 2401%float; 496%float]);
    ("households", Pandas.Num <$> [126%float; 1138%float; 177%float]);
    ("median_income", Pandas.Num <$> [8.5%float; 8.25%float; 7.25%float]);
    ("ocean_proximity", Pandas.Str <$> ["NEAR BAY"; "INLAND"; "NEAR BAY"]) ].

Definition sample_longitude : list Pandas.cell :=
  Pandas.Num <$> [(-122.25)%float; (-122.25)%float; (-122.5)%float].

(** * Properties *)

(** [x ∈ l] for a list written out. *)
Ltac elem_of_concrete :=
  repeat first [apply list_elem_of_here | apply list_elem_of_further].

(** ** Helper lemmas: results *)

Lemma bind_Ok {A B} (r : result A) (f : A → result B) (b : B) :
  r ≫= f = Ok b ↔ ∃ a, r = Ok a ∧ f a = Ok b.
Proof.
  destruct r as [a|e]; simpl; split.
  - intros Hf. by exists a.
  - by intros (a' & [= ->] & Hf).
  - intros [=].
  - by intros (a' & [=] & _).
Qed.

Lemma try_except_Ok {A} (body : result A) (a : A) :
  try_except_HousingException body = Ok a ↔ body = Ok a.
Proof. destruct body; simpl; split; congruence. Qed.

Lemma try_except_Raise {A} (body : result A) (e : exn) :
  try_except_HousingException body = Raise e ↔
  ∃ cause, body = Raise cause ∧ e = HousingException cause.
Proof.
  destruct body as [a|e']; simpl; split.
  - intros [=].
  - by intros (c & [=] & _).
  - intros [= <-]. by exists e'.
  - by intros (c & [= ->] & ->).
Qed.

(** ** Helper lemmas: arrays *)

Lemma axis_index_lt n i j : axis_index n i = Ok j → j < n.
Proof.
  unfold axis_index. repeat case_decide; intros [=]; subst; lia.
Qed.

Lemma axis_index_Raise n i e :
  axis_index n i = Raise e ↔ (¬ (- Z.of_nat n ≤ i < Z.of_nat n)%Z ∧ e = IndexError).
Proof.
  unfold axis_index. repeat case_decide; split; try intros [=]; try (intros [? ?]);
    subst; try done; try lia.
  split; [lia|done].
Qed.

Lemma zip_with_fmap_rows {A B C D} (op : B → C → D) (f : A → B) (g : A → C) (l : list A) :
  zip_with op (f <$> l) (g <$> l) = (λ r, op (f r) (g r)) <$> l.
Proof. induction l as [|r l IH]; csimpl; [done|by f_equal]. Qed.

Lemma append_column_fmap {A B} (g : B → list A) (f : B → A) (l : list B) :
  append_column (g <$> l) (f <$> l) = (λ r, g r ++ [f r]) <$> l.
Proof. exact (zip_with_fmap_rows (λ r v, r ++ [v]) g f l). Qed.

Lemma divide_fmap {A} (f g : A → float) (l : list A) :
  divide (f <$> l) (g <$> l) = Ok ((λ r, PrimFloat.div (f r) (g r)) <$> l).
Proof.
  unfold divide. rewrite decide_True by (by rewrite !length_fmap).
  by rewrite zip_with_fmap_rows.
Qed.

Lemma transform_closed_form fg X tr pop hh tb :
  indices_in_range fg (ncols X) tr pop hh tb →
  FeatureGenerator.transform fg X =
    Ok (NdArray
          (ncols X + (if FeatureGenerator.add_bedrooms_per_room fg then 3 else 2))
          ((λ r, r ++ derived_features (FeatureGenerator.add_bedrooms_per_room fg) tr pop hh tb r)
             <$> rows X)).
Proof.
  intros (Htr & Hpop & Hhh & Htb).
  unfold FeatureGenerator.transform, column, derived_features.
  rewrite Htr, Hhh, Hpop. simpl.
  rewrite !divide_fmap. simpl.
  destruct (FeatureGenerator.add_bedrooms_per_room fg) eqn:Hflag.
  - rewrite (Htb eq_refl). simpl. rewrite divide_fmap. simpl.
    unfold c_, nrows. simpl. rewrite !length_fmap, !Nat.eqb_refl. simpl.
    do 2 f_equal.
    rewrite <- (list_fmap_id (rows X)) at 1.
    rewrite !append_column_fmap.
    apply list_fmap_ext. intros _ r _. simpl. by rewrite <- !app_assoc.
  - unfold c_, nrows. simpl. rewrite !length_fmap, !Nat.eqb_refl. simpl.
    do 2 f_equal.
    rewrite <- (list_fmap_id (rows X)) at 1.
    rewrite !append_column_fmap.
    apply list_fmap_ext. intros _ r _. simpl. by rewrite <- !app_assoc.
Qed.

Lemma rectangular_entry {A} `{Inhabited A} (X : ndarray A) i r j :
  rectangular X → rows X !! i = Some r → j < ncols X →
  entry X i j = Some (r !!! j).
Proof.
  intros Hrect Hr Hj. unfold entry. rewrite Hr. simpl.
  apply list_lookup_lookup_total_lt.
  unfold rectangular in Hrect. rewrite Forall_lookup in Hrect.
  by rewrite (Hrect i r Hr).
Qed.

Lemma entry_appended {A} (m : nat) (f : list A → list A) (rs : list (list A)) i r j k :
  rs !! i = Some r → j = length r + k →
  entry (NdArray m ((λ r, r ++ f r) <$> rs)) i j = f r !! k.
Proof.
  intros Hr ->. unfold entry. simpl. rewrite list_lookup_fmap, Hr. simpl.
  rewrite lookup_app_r by lia. f_equal. lia.
Qed.

Lemma entry_kept {A} (m : nat) (f : list A → list A) (rs : list (list A)) i r j :
  rs !! i = Some r → j < length r →
  entry (NdArray m ((λ r, r ++ f r) <$> rs)) i j = r !! j.
Proof.
  intros Hr Hj. unfold entry. simpl. rewrite list_lookup_fmap, Hr. simpl.
  by rewrite lookup_app_l.
Qed.

(** ** The ratio columns *)

Lemma transform_ratio_rows fg X tr pop hh tb :
  rectangular X →
  indices_in_range fg (ncols X) tr pop hh tb →
  ∃ Y, FeatureGenerator.transform fg X = Ok Y ∧
       ∀ i, i < nrows X →
            ratio_row (FeatureGenerator.add_bedrooms_per_room fg) X Y tr pop hh tb i.
Proof.
  intros Hrect Hix. eexists. split; [by apply transform_closed_form|].
  destruct Hix as (Htr & Hpop & Hhh & Htb).
  apply axis_index_lt in Htr, Hpop, Hhh.
  intros i Hi. apply lookup_lt_is_Some_2 in Hi as [r Hr].
  assert (length r = ncols X) as Hlen.
  { unfold rectangular in Hrect. rewrite Forall_lookup in Hrect. eauto. }
  exists (r !!! tr), (r !!! pop), (r !!! hh).
  rewrite !(rectangular_entry X i r) by done.
  rewrite (entry_appended _ _ _ i r (ncols X) 0) by (done || lia).
  rewrite (entry_appended _ _ _ i r (ncols X + 1) 1) by (done || lia).
  repeat split; try done.
  intros Hflag. exists (r !!! tb).
  specialize (Htb Hflag). apply axis_index_lt in Htb.
  rewrite (rectangular_entry X i r) by done.
  rewrite (entry_appended _ _ _ i r (ncols X + 2) 2) by (done || lia).
  by rewrite Hflag.
Qed.

Lemma column_Ok_index {A} `{Inhabited A} (X : ndarray A) (i : Z) (c : list A) :
  column X i = Ok c → ∃ j, axis_index (ncols X) i = Ok j.
Proof. unfold column. intros (j & Hj & _)%bind_Ok. by exists j. Qed.

(** [transform] returns only if every subscript it takes is inside [X]. *)
Lemma transform_Ok_indices fg X Y :
  FeatureGenerator.transform fg X = Ok Y →
  ∃ tr pop hh tb, indices_in_range fg (ncols X) tr pop hh tb.
Proof.
  unfold FeatureGenerator.transform. rewrite try_except_Ok. intros Hbody.
  apply bind_Ok in Hbody as (total_rooms & [tr Htr]%column_Ok_index & Hbody).
  apply bind_Ok in Hbody as (households & [hh Hhh]%column_Ok_index & Hbody).
  apply bind_Ok in Hbody as (room_per_household & _ & Hbody).
  apply bind_Ok in Hbody as (population & [pop Hpop]%column_Ok_index & Hbody).
  apply bind_Ok in Hbody as (households' & _ & Hbody).
  apply bind_Ok in Hbody as (population_per_household & _ & Hbody).
  destruct (FeatureGenerator.add_bedrooms_per_room fg) eqn:Hflag.
  - apply bind_Ok in Hbody as (total_bedrooms & [tb Htb]%column_Ok_index & _).
    exists tr, pop, hh, tb. unfold indices_in_range. by rewrite Hflag.
  - exists tr, pop, hh, 0. unfold indices_in_range. by rewrite Hflag.
Qed.

(** C1. For every numeric matrix [X] given to [transform]: whenever the call
    returns, in every row the first appended column is total rooms divided
    by households, the second is population divided by households and, when
    [add_bedrooms_per_room] is set, the third is total bedrooms divided by
    total rooms; and the call returns whenever the indices of the generator
    are inside [X].  The quotients are the IEEE quotients of the entries
    themselves, so the equalities are exact; they hold for every row, in
    particular for those whose households entry is not zero. *)
Theorem transform_appends_exact_ratios (fg : FeatureGenerator.t) (X : ndarray float) :
  rectangular X →
  (∀ Y, FeatureGenerator.transform fg X = Ok Y →
        ∃ tr pop hh tb,
          indices_in_range fg (ncols X) tr pop hh tb ∧
          ∀ i, i < nrows X →
               ratio_row (FeatureGenerator.add_bedrooms_per_room fg) X Y tr pop hh tb i) ∧
  (∀ tr pop hh tb,
     indices_in_range fg (ncols X) tr pop hh tb →
     ∃ Y, FeatureGenerator.transform fg X = Ok Y).
Proof.
  intros Hrect. split.
  - intros Y HY.
    destruct (transform_Ok_indices fg X Y HY) as (tr & pop & hh & tb & Hix).
    exists tr, pop, hh, tb. split; [done|].
    destruct (transform_ratio_rows fg X tr pop hh tb Hrect Hix) as (Y' & HY' & Hrows).
    by assert (Y' = Y) as -> by congruence.
  - intros tr pop hh tb Hix.
    destruct (transform_ratio_rows fg X tr pop hh tb Hrect Hix) as (Y & HY & _).
    by exists Y.
Qed.

Lemma transform_appends_exact_ratios_witness :
  ∃ Y, FeatureGenerator.transform sample_generator sample_X = Ok Y ∧
       ∃ tr pop hh tb,
         indices_in_range sample_generator 7 tr pop hh tb ∧
         ∀ i, i < 3 → ratio_row true sample_X Y tr pop hh tb i.
Proof.
  assert (rectangular sample_X) as Hrect by repeat constructor.
  destruct (proj2 (transform_appends_exact_ratios sample_generator sample_X Hrect) 3 5 6 4)
    as [Y HY].
  { repeat split; try intros _; reflexivity. }
  exists Y. split; [done|].
  exact (proj1 (transform_appends_exact_ratios sample_generator sample_X Hrect) Y HY).
Defined.

(** ** Shape of the result *)

Lemma closed_form_rectangular {A} (n k : nat) (f : list A → list A) (rs : list (list A)) :
  Forall (λ r, length r = n) rs →
  (∀ r, length (f r) = k) →
  rectangular (NdArray (n + k) ((λ r, r ++ f r) <$> rs)).
Proof.
  intros Hrs Hf. unfold rectangular. simpl.
  rewrite Forall_fmap. eapply Forall_impl; [exact Hrs|].
  intros r Hr. simpl. by rewrite length_app, Hr, Hf.
Qed.

(** C2. For every matrix [X] with [c] columns, what [transform] returns is a
    matrix with [c + 3] columns when [add_bedrooms_per_room] is true and
    [c + 2] when it is false, with as many rows as [X], each row of it having
    that many entries; and it returns whenever the indices of the generator
    are inside [X]. *)
Theorem transform_column_count (fg : FeatureGenerator.t) (X : ndarray float) :
  (∀ Y, FeatureGenerator.transform fg X = Ok Y →
        ncols Y = ncols X + (if FeatureGenerator.add_bedrooms_per_room fg then 3 else 2) ∧
        nrows Y = nrows X ∧
        (rectangular X → rectangular Y)) ∧
  (∀ tr pop hh tb,
     indices_in_range fg (ncols X) tr pop hh tb →
     ∃ Y, FeatureGenerator.transform fg X = Ok Y).
Proof.
  split.
  - intros Y HY.
    destruct (transform_Ok_indices fg X Y HY) as (tr & pop & hh & tb & Hix).
    rewrite (transform_closed_form fg X tr pop hh tb Hix) in HY. injection HY as <-.
    split; [done|]. split.
    + unfold nrows. simpl. by rewrite length_fmap.
    + intros Hrect. apply closed_form_rectangular; [done|].
      intros r. unfold derived_features.
      by destruct (FeatureGenerator.add_bedrooms_per_room fg).
  - intros tr pop hh tb Hix. eexists. by apply transform_closed_form.
Qed.

Lemma transform_column_count_witness :
  ∃ Y, FeatureGenerator.transform sample_generator sample_X = Ok Y ∧
       ncols Y = 7 + 3 ∧ nrows Y = 3 ∧ (rectangular sample_X → rectangular Y).
Proof.
  destruct (proj2 (transform_column_count sample_generator sample_X) 3 5 6 4) as [Y HY].
  { repeat split; try intros _; reflexivity. }
  exists Y. split; [done|].
  exact (proj1 (transform_column_count sample_generator sample_X) Y HY).
Defined.

(** ** Zero denominators *)

Lemma div_zero_inf_or_nan (x y : float) :
  PrimFloat.is_zero y = true → is_inf_or_nan (PrimFloat.div x y) = true.
Proof.
  unfold is_inf_or_nan, PrimFloat.is_zero, PrimFloat.is_infinity, PrimFloat.is_nan.
  rewrite !FloatAxioms.eqb_spec, FloatAxioms.abs_spec, FloatAxioms.div_spec.
  destruct (Prim2SF y) as [[]|[]| |[] m e]; cbn; try discriminate; intros _;
    destruct (Prim2SF x) as [[]|[]| |[] m' e']; reflexivity.
Qed.

(** C6. For every matrix with a row whose households entry is zero (or,
    with the flag set, whose total-rooms entry is zero), [transform] does not
    raise: it returns an array in which the derived entries with the zero
    divisor are an infinity or NaN, as IEEE division gives them, and every
    row, the other rows included, carries the quotients of its own entries. *)
Theorem transform_zero_denominator (fg : FeatureGenerator.t) (X : ndarray float)
    (tr pop hh tb : nat) :
  rectangular X →
  indices_in_range fg (ncols X) tr pop hh tb →
  ∃ Y, FeatureGenerator.transform fg X = Ok Y ∧
       (∀ i households,
          entry X i hh = Some households →
          PrimFloat.is_zero households = true →
          ∃ a b, entry Y i (ncols X) = Some a ∧ is_inf_or_nan a = true ∧
                 entry Y i (ncols X + 1) = Some b ∧ is_inf_or_nan b = true) ∧
       (FeatureGenerator.add_bedrooms_per_room fg = true →
        ∀ i total_rooms,
          entry X i tr = Some total_rooms →
          PrimFloat.is_zero total_rooms = true →
          ∃ c, entry Y i (ncols X + 2) = Some c ∧ is_inf_or_nan c = true) ∧
       (∀ i, i < nrows X →
             ratio_row (FeatureGenerator.add_bedrooms_per_room fg) X Y tr pop hh tb i).
Proof.
  intros Hrect Hix.
  destruct (transform_ratio_rows fg X tr pop hh tb Hrect Hix) as (Y & HY & Hrows).
  assert (∀ i j v, entry X i j = Some v → i < nrows X) as Hin.
  { intros i j v. unfold entry. destruct (rows X !! i) eqn:Hr; [|done].
    intros _. by eapply lookup_lt_Some. }
  exists Y. split; [done|]. split; [|split; [|done]].
  - intros i h Hh Hzero.
    destruct (Hrows i (Hin _ _ _ Hh)) as (a & p & h' & _ & _ & Hh' & Ha & Hp & _).
    rewrite Hh in Hh'. injection Hh' as <-.
    eexists _, _. repeat split; [exact Ha| |exact Hp|]; by apply div_zero_inf_or_nan.
  - intros Hflag i r Hr Hzero.
    destruct (Hrows i (Hin _ _ _ Hr)) as (r' & p & h & Hr' & _ & _ & _ & _ & Hb).
    rewrite Hr in Hr'. injection Hr' as <-.
    destruct (Hb Hflag) as (b & _ & Hc).
    eexists. split; [exact Hc|]. by apply div_zero_inf_or_nan.
Qed.

Lemma transform_zero_denominator_witness :
  ∃ Y, FeatureGenerator.transform sample_generator sample_X_empty_district = Ok Y ∧
       (∀ i households,
          entry sample_X_empty_district i 6 = Some households →
          PrimFloat.is_zero households = true →
          ∃ a b, entry Y i 7 = Some a ∧ is_inf_or_nan a = true ∧
                 entry Y i 8 = Some b ∧ is_inf_or_nan b = true) ∧
       (true = true →
        ∀ i total_rooms,
          entry sample_X_empty_district i 3 = Some total_rooms →
          PrimFloat.is_zero total_rooms = true →
          ∃ c, entry Y i 9 = Some c ∧ is_inf_or_nan c = true) ∧
       (∀ i, i < 3 → ratio_row true sample_X_empty_district Y 3 5 6 4 i).
Proof.
  apply (transform_zero_denominator sample_generator sample_X_empty_district 3 5 6 4).
  - repeat constructor.
  - repeat split; try intros _; reflexivity.
Defined.

(** ** Construction of the generator *)

Lemma list_index_Ok x l i :
  list_index x l = Ok i ↔ l !! i = Some x ∧ ∀ j, j < i → l !! j ≠ Some x.
Proof.
  revert i. induction l as [|y l IH]; intros i; simpl.
  - split; [intros [=]|by intros [[=] _]].
  - case_decide as Hy.
    + subst y. split.
      * intros [= <-]. split; [done|]. intros j Hj. lia.
      * intros [Hi Hfirst]. destruct i as [|i]; [done|].
        exfalso. apply (Hfirst 0); [lia|done].
    + destruct (list_index x l) as [k|e] eqn:Hk; simpl.
      * split.
        -- intros [= <-]. destruct (proj1 (IH k) eq_refl) as [Hk' Hfirst]. split; [done|].
           intros [|j] Hj; simpl; [congruence|]. apply Hfirst. lia.
        -- intros [Hi Hfirst]. destruct i as [|i]; simpl in Hi; [congruence|].
           f_equal. f_equal.
           assert (Ok k = Ok i) as [= ->]; [|done].
           apply IH. split; [done|]. intros j Hj. apply (Hfirst (S j)). lia.
      * split; [intros [=]|].
        intros [Hi Hfirst]. destruct i as [|i]; simpl in Hi; [congruence|].
        assert (@Raise nat e = Ok i) as [=].
        apply IH. split; [done|]. intros j Hj. apply (Hfirst (S j)). lia.
Qed.

Lemma list_index_Raise x l e :
  list_index x l = Raise e ↔ (x ∉ l) ∧ e = ValueError.
Proof.
  induction l as [|y l IH]; simpl.
  - split; [intros [= <-]; split; [apply not_elem_of_nil|done]|by intros [_ ->]].
  - case_decide as Hy.
    + subst y. split; [intros [=]|]. intros [Hx _]. exfalso. apply Hx. left.
    + destruct (list_index x l) as [k|e'] eqn:Hk; simpl.
      * split; [intros [=]|]. intros [Hx ->].
        assert (@Ok nat k = Raise ValueError) as [=].
        apply IH. split; [|done]. intros Hin. apply Hx. by right.
      * split.
        -- intros [= ->]. destruct (proj1 IH eq_refl) as [Hx ->]. split; [|done].
           rewrite not_elem_of_cons. split; [congruence|done].
        -- intros [Hx ->]. f_equal.
           assert (Raise e' = @Raise nat ValueError) as [= ->]; [|done].
           apply IH. split; [|done]. intros Hin. apply Hx. by right.
Qed.

Lemma list_index_total x l : x ∈ l → ∃ i, list_index x l = Ok i.
Proof.
  intros Hx. destruct (list_index x l) as [i|e] eqn:Hi; [by exists i|].
  apply list_index_Raise in Hi as [Hnot _]. done.
Qed.

(** C3. Constructing [FeatureGenerator] with a [columns] list that lacks one
    of the four required names fails with the domain error (a
    [HousingException] whose cause is the [ValueError] of the lookup);
    with the four names present the construction succeeds. *)
Theorem init_requires_the_four_columns
    (flag : option bool) (a b c d : option Z) (names : list string) :
  ((∃ name, name ∈ FeatureGenerator.required_columns ∧ name ∉ names) →
   FeatureGenerator.__init__ flag a b c d (Some names) =
     Raise (HousingException ValueError)) ∧
  ((∀ name, name ∈ FeatureGenerator.required_columns → name ∈ names) →
   ∃ fg, FeatureGenerator.__init__ flag a b c d (Some names) = Ok fg).
Proof.
  unfold FeatureGenerator.__init__, FeatureGenerator.required_columns. split.
  - intros (name & Hreq & Hmissing).
    assert (∀ x, x ∉ names → list_index x names = Raise ValueError) as Hraise.
    { intros x Hx. by apply list_index_Raise. }
    destruct (list_index Constant.COLUMN_TOTAL_ROOMS names) as [i1|e1] eqn:H1; simpl;
      [|by apply list_index_Raise in H1 as [_ ->]].
    destruct (list_index Constant.COLUMN_POPULATION names) as [i2|e2] eqn:H2; simpl;
      [|by apply list_index_Raise in H2 as [_ ->]].
    destruct (list_index Constant.COLUMN_HOUSEHOLDS names) as [i3|e3] eqn:H3; simpl;
      [|by apply list_index_Raise in H3 as [_ ->]].
    destruct (list_index Constant.COLUMN_TOTAL_BEDROOM names) as [i4|e4] eqn:H4; simpl;
      [|by apply list_index_Raise in H4 as [_ ->]].
    exfalso.
    repeat (apply elem_of_cons in Hreq as [->|Hreq];
            [rewrite (Hraise _ Hmissing) in *; discriminate|]).
    by apply elem_of_nil in Hreq.
  - intros Hall.
    destruct (list_index_total Constant.COLUMN_TOTAL_ROOMS names) as [i1 ->];
      [apply Hall; set_solver|].
    destruct (list_index_total Constant.COLUMN_POPULATION names) as [i2 ->];
      [apply Hall; set_solver|].
    destruct (list_index_total Constant.COLUMN_HOUSEHOLDS names) as [i3 ->];
      [apply Hall; set_solver|].
    destruct (list_index_total Constant.COLUMN_TOTAL_BEDROOM names) as [i4 ->];
      [apply Hall; set_solver|].
    simpl. by eexists.
Qed.

Lemma init_requires_the_four_columns_witness :
  FeatureGenerator.__init__ None None None None None
    (Some ["total_rooms"; "population"; "households"; "median_income"]) =
    Raise (HousingException ValueError) ∧
  ∃ fg, FeatureGenerator.__init__ None None None None None
          (Some sample_numerical_columns) = Ok fg.
Proof.
  split.
  - apply (proj1 (init_requires_the_four_columns None None None None None
                    ["total_rooms"; "population"; "households"; "median_income"])).
    exists "total_bedrooms". split.
    + unfold FeatureGenerator.required_columns. elem_of_concrete.
    + rewrite !not_elem_of_cons. repeat split; try discriminate. apply not_elem_of_nil.
  - apply (proj2 (init_requires_the_four_columns None None None None None
                    sample_numerical_columns)).
    unfold FeatureGenerator.required_columns, sample_numerical_columns.
    intros name Hname.
    repeat (apply elem_of_cons in Hname as [->|Hname]; [elem_of_concrete|]).
    by apply elem_of_nil in Hname.
Defined.

(** C10. With a [columns] list the four index arguments are ignored: whatever
    the caller passes for them, the result of the construction is the same,
    and the stored indices are the first positions of the four required
    names in the list.  Without a list ([columns] is [None]) the stored
    indices are the arguments, which default to 3, 5, 6 and 4. *)
Theorem init_columns_override_indices
    (flag : option bool) (a b c d : option Z) (names : list string) :
  (∀ a' b' c' d',
     FeatureGenerator.__init__ flag a' b' c' d' (Some names) =
     FeatureGenerator.__init__ flag a b c d (Some names)) ∧
  (∀ fg,
     FeatureGenerator.__init__ flag a b c d (Some names) = Ok fg →
     first_position names Constant.COLUMN_TOTAL_ROOMS (FeatureGenerator.total_rooms_ix fg) ∧
     first_position names Constant.COLUMN_POPULATION (FeatureGenerator.population_ix fg) ∧
     first_position names Constant.COLUMN_HOUSEHOLDS (FeatureGenerator.households_ix fg) ∧
     first_position names Constant.COLUMN_TOTAL_BEDROOM (FeatureGenerator.total_bedrooms_ix fg)) ∧
  FeatureGenerator.__init__ flag a b c d None =
    Ok (FeatureGenerator.Build None (default true flag)
          (default 3%Z a) (default 5%Z b) (default 6%Z c) (default 4%Z d)).
Proof.
  split; [done|]. split; [|done].
  intros fg. unfold FeatureGenerator.__init__.
  rewrite try_except_Ok.
  intros (i1 & H1 & Hfg)%bind_Ok.
  apply bind_Ok in Hfg as (i2 & H2 & Hfg).
  apply bind_Ok in Hfg as (i3 & H3 & Hfg).
  apply bind_Ok in Hfg as (i4 & H4 & Hfg).
  injection Hfg as <-. simpl.
  unfold first_position.
  repeat split; eexists; (split; [reflexivity|]); by apply list_index_Ok.
Qed.

Lemma init_columns_override_indices_witness :
  FeatureGenerator.__init__ None (Some 3%Z) (Some 5%Z) (Some 6%Z) (Some 4%Z)
    (Some sample_numerical_columns) =
  Ok (FeatureGenerator.Build (Some sample_numerical_columns) true 0 2 3 1) ∧
  first_position sample_numerical_columns Constant.COLUMN_TOTAL_BEDROOM 1.
Proof.
  split; [reflexivity|].
  apply (proj1 (proj2 (init_columns_override_indices None (Some 3%Z) (Some 5%Z)
                         (Some 6%Z) (Some 4%Z) sample_numerical_columns))
           (FeatureGenerator.Build (Some sample_numerical_columns) true 0 2 3 1)).
  reflexivity.
Defined.

(** ** The argument of [transform] is left alone *)

Lemma alloc_fresh {A} (h h' : gmap Heap.loc A) (a : A) (l : Heap.loc) :
  Heap.alloc h a = (l, h') →
  h !! l = None ∧ h' !! l = Some a ∧ ∀ l', l' ≠ l → h' !! l' = h !! l'.
Proof.
  unfold Heap.alloc. intros [= <- <-].
  assert (h !! fresh (dom h) = None) as Hfresh.
  { apply not_elem_of_dom. apply is_fresh. }
  split; [done|]. split; [apply lookup_insert_eq|].
  intros l' Hl'. by apply lookup_insert_ne.
Qed.

(** C7. [transform] returns a new array: its first columns are the columns
    of [X] in their order, the derived columns come after them, and [X]
    itself, like every other array alive at the call, is as it was, whether
    the call returns or raises.  The call returns whenever the indices of
    the generator are inside [X]. *)
Theorem transform_keeps_input (fg : FeatureGenerator.t) (x : Heap.loc)
    (h : gmap Heap.loc (ndarray float)) (X : ndarray float) :
  h !! x = Some X →
  rectangular X →
  ∀ r h', FeatureGenerator.transform_in fg x h = (r, h') →
    h' !! x = Some X ∧
    (∀ l, is_Some (h !! l) → h' !! l = h !! l) ∧
    (∀ y, r = Ok y →
       h !! y = None ∧
       ∃ Y tr pop hh tb,
         h' !! y = Some Y ∧
         nrows Y = nrows X ∧
         (∀ i j, j < ncols X → entry Y i j = entry X i j) ∧
         indices_in_range fg (ncols X) tr pop hh tb ∧
         (∀ i, i < nrows X →
               ratio_row (FeatureGenerator.add_bedrooms_per_room fg) X Y tr pop hh tb i)) ∧
    (∀ tr pop hh tb, indices_in_range fg (ncols X) tr pop hh tb → ∃ y, r = Ok y).
Proof.
  intros Hx Hrect r h'. unfold FeatureGenerator.transform_in. rewrite Hx.
  destruct (FeatureGenerator.transform fg X) as [Y|e] eqn:HY.
  - destruct (Heap.alloc h Y) as [y h''] eqn:Halloc. intros [= <- <-].
    apply alloc_fresh in Halloc as (Hnew & Hy & Hframe).
    assert (∀ l, is_Some (h !! l) → h'' !! l = h !! l) as Hkept.
    { intros l [a Hl]. apply Hframe. intros ->. congruence. }
    split; [by rewrite Hkept|]. split; [done|]. split; [|by eauto].
    intros y' [= <-]. split; [done|].
    destruct (transform_Ok_indices fg X Y HY) as (tr & pop & hh & tb & Hix).
    destruct (transform_ratio_rows fg X tr pop hh tb Hrect Hix) as (Y' & HY' & Hratio).
    assert (Y' = Y) as -> by congruence.
    exists Y, tr, pop, hh, tb. split; [done|].
    rewrite (transform_closed_form fg X tr pop hh tb Hix) in HY. injection HY as <-.
    split_and!; try done.
    + unfold nrows. simpl. by rewrite length_fmap.
    + intros i j Hj.
      unfold entry at 2. destruct (rows X !! i) as [row|] eqn:Hrow.
      * simpl. apply (entry_kept _ _ _ i row j Hrow).
        unfold rectangular in Hrect. rewrite Forall_lookup in Hrect.
        by rewrite (Hrect i row Hrow).
      * unfold entry. simpl. by rewrite list_lookup_fmap, Hrow.
  - intros [= <- <-]. split; [done|]. split; [done|]. split; [done|].
    intros tr pop hh tb Hix.
    rewrite (transform_closed_form fg X tr pop hh tb Hix) in HY. done.
Qed.

Lemma transform_keeps_input_witness :
  ∃ y Y h',
    FeatureGenerator.transform_in sample_generator 0 {[0 := sample_X]} = (Ok y, h') ∧
    h' !! 0 = Some sample_X ∧
    h' !! y = Some Y ∧
    ({[0 := sample_X]} : gmap Heap.loc (ndarray float)) !! y = None ∧
    nrows Y = 3 ∧
    (∀ i j, j < 7 → entry Y i j = entry sample_X i j).
Proof.
  assert (rectangular sample_X) as Hrect by repeat constructor.
  assert (({[0 := sample_X]} : gmap Heap.loc (ndarray float)) !! 0 = Some sample_X) as Hx
    by reflexivity.
  destruct (FeatureGenerator.transform_in sample_generator 0 {[0 := sample_X]})
    as [r h'] eqn:Hrun.
  destruct (transform_keeps_input sample_generator 0 {[0 := sample_X]} sample_X
              Hx Hrect r h' Hrun) as (Hkept & _ & Hnew & Htotal).
  destruct (Htotal 3 5 6 4) as [y ->].
  { repeat split; try intros _; reflexivity. }
  destruct (Hnew y eq_refl) as (Hfresh & Y & tr & pop & hh & tb & HY & Hrows & Hcols & _).
  exists y, Y, h'. by split_and!.
Defined.

(** ** Helper lemmas: computations that write *)

Section IO.
Context {Obj : Type}.
Implicit Types w : Util.written Obj.

Lemma io_bind_pure_Ok {A B} (a : A) (f : A → Util.IO Obj B) :
  Util.pure (Ok a) ≫= f = f a.
Proof. unfold mbind, Util.io_bind, Util.pure. by destruct (f a). Qed.

Lemma io_bind_pure_Raise {A B} (e : exn) (f : A → Util.IO Obj B) :
  Util.pure (Raise e) ≫= f = (Raise e, []).
Proof. reflexivity. Qed.

Lemma io_bind_writing_Ok {B} w (u : ()) (f : () → Util.IO Obj B) :
  Util.writing w (Ok u) ≫= f = ((f ()).1, w :: (f ()).2).
Proof. unfold mbind, Util.io_bind, Util.writing. by destruct (f ()). Qed.

Lemma io_bind_writing_Raise {B} w (e : exn) (f : () → Util.IO Obj B) :
  Util.writing w (Raise e) ≫= f = (Raise e, []).
Proof. reflexivity. Qed.

End IO.

(** One step of [initiate_data_tranformation]: case on the result of the
    step at the head of the block and move past it. *)
Ltac io_step x H :=
  lazymatch goal with
  | |- context [Util.pure ?r ≫= _] =>
      destruct r as [x|?] eqn:H;
      [rewrite io_bind_pure_Ok | rewrite io_bind_pure_Raise]
  | |- context [Util.writing ?w ?r ≫= _] =>
      destruct r as [x|?] eqn:H;
      [rewrite io_bind_writing_Ok; cbn [fst snd] | rewrite io_bind_writing_Raise]
  end.

(** ** Names of the written files *)

Lemma startswith_csv_app (c : Ascii.ascii) (rest : string) :
  Str.startswith ".csv" (String c rest) = false →
  Str.startswith ".csv" (String c rest +:+ ".csv") = false.
Proof.
  destruct rest as [|c1 [|c2 [|c3 rest]]]; simpl;
    repeat match goal with
           | |- context [Ascii.eqb ?a ?b] => destruct (Ascii.eqb_spec a b); subst; simpl
           end; done.
Qed.

Lemma replace_csv_extension (stem : string) :
  Str.contains ".csv" stem = false →
  Str.replace ".csv" ".npz" (stem +:+ ".csv") = stem +:+ ".npz".
Proof.
  unfold Str.replace. induction stem as [|c rest IH].
  - reflexivity.
  - intros Hc. cbn [Str.contains] in Hc. apply orb_false_elim in Hc as [Hpre Hrest].
    specialize (IH Hrest). apply startswith_csv_app in Hpre.
    change (String c rest +:+ ".csv") with (String c (rest +:+ ".csv")) in *.
    cbn [Str.replace_from]. rewrite Hpre. by rewrite IH.
Qed.

(** The claim C8 as stated fails: [.csv] is replaced wherever it occurs in
    the base name, not only as the extension. *)
Lemma transformed_file_name_rewrites_inner_csv :
  DataTransformation.transformed_file_name "artifact/ingested_data/train/housing.csv.backup.csv"
    = "housing.npz.backup.npz" ∧
  extension_replaced "artifact/ingested_data/train/housing.csv.backup.csv"
    = "housing.csv.backup.npz" ∧
  DataTransformation.transformed_file_name "artifact/ingested_data/train/housing.csv.backup.csv"
    ≠ extension_replaced "artifact/ingested_data/train/housing.csv.backup.csv".
Proof. by vm_compute. Qed.

(** Where a successful run has written, whatever the names of the sources. *)
Lemma initiate_written_paths lib world self art :
  (DataTransformation.initiate_data_tranformation lib world self).1 = Ok art →
  let config := DataTransformation.data_transformation_config self in
  let ingestion := DataTransformation.data_ingestion_artifact self in
  let file_path_train :=
    OsPath.join (Entity.transformed_train_dir config)
      (DataTransformation.transformed_file_name (Entity.train_file_path ingestion)) in
  let file_path_test :=
    OsPath.join (Entity.transformed_test_dir config)
      (DataTransformation.transformed_file_name (Entity.test_file_path ingestion)) in
  Entity.transformed_train_file_path art = file_path_train ∧
  Entity.transformed_test_file_path art = file_path_test ∧
  ∃ train_arr test_arr obj,
    (DataTransformation.initiate_data_tranformation lib world self).2 =
      [Util.SavedArray file_path_train train_arr;
       Util.SavedArray file_path_test test_arr;
       Util.SavedObject (Entity.preprocessed_object_file_path config) obj].
Proof.
  unfold DataTransformation.initiate_data_tranformation, Util.io_try_except_HousingException.
  cbn [fst snd]. rewrite try_except_Ok.
  io_step obj H1; [|done]. io_step train_df H2; [|done]. io_step test_df H3; [|done].
  io_step schema H4; [|done]. io_step target H5; [|done].
  io_step X_train H6; [|done]. io_step y_train H7; [|done].
  io_step X_test H8; [|done]. io_step y_test H9; [|done].
  io_step fitted H10; [|done]. destruct fitted as [obj' A_train].
  io_step A_test H11; [|done]. io_step train_arr H12; [|done].
  io_step test_arr H13; [|done].
  io_step u1 H14; [|done]. io_step u2 H15; [|done]. io_step u3 H16; [|done].
  cbn [fst snd Util.pure].
  intros [= <-]. cbn. eauto 10.
Qed.

(** C8, as the code has it.  For train and test sources whose base name is
    a stem followed by [.csv], the stem not containing [.csv], a
    successful run names each output after its source with the extension
    [.csv] replaced by [.npz], joins that name under the configured train
    and test directory, and writes the two arrays there. *)
Theorem initiate_names_outputs_after_sources lib world self art stem_train stem_test :
  let config := DataTransformation.data_transformation_config self in
  let ingestion := DataTransformation.data_ingestion_artifact self in
  (DataTransformation.initiate_data_tranformation lib world self).1 = Ok art →
  OsPath.basename (Entity.train_file_path ingestion) = stem_train +:+ ".csv" →
  Str.contains ".csv" stem_train = false →
  OsPath.basename (Entity.test_file_path ingestion) = stem_test +:+ ".csv" →
  Str.contains ".csv" stem_test = false →
  let file_path_train :=
    OsPath.join (Entity.transformed_train_dir config) (stem_train +:+ ".npz") in
  let file_path_test :=
    OsPath.join (Entity.transformed_test_dir config) (stem_test +:+ ".npz") in
  Entity.transformed_train_file_path art = file_path_train ∧
  Entity.transformed_test_file_path art = file_path_test ∧
  ∃ train_arr test_arr obj,
    (DataTransformation.initiate_data_tranformation lib world self).2 =
      [Util.SavedArray file_path_train train_arr;
       Util.SavedArray file_path_test test_arr;
       Util.SavedObject (Entity.preprocessed_object_file_path config) obj].
Proof.
  intros config ingestion Hrun Htrain Hstem_train Htest Hstem_test.
  pose proof (initiate_written_paths lib world self art Hrun) as Hpaths.
  cbn zeta in Hpaths. unfold DataTransformation.transformed_file_name in Hpaths.
  fold config ingestion in Hpaths.
  rewrite Htrain, Htest in Hpaths.
  by rewrite !replace_csv_extension in Hpaths.
Qed.

Lemma initiate_names_outputs_after_sources_witness :
  Entity.transformed_train_file_path sample_artifact
    = OsPath.join "artifact/transformed_data/train" ("housing" +:+ ".npz") ∧
  Entity.transformed_test_file_path sample_artifact
    = OsPath.join "artifact/transformed_data/test" ("housing" +:+ ".npz") ∧
  ∃ train_arr test_arr obj,
    (DataTransformation.initiate_data_tranformation
       sample_library sample_world sample_transformation).2 =
      [Util.SavedArray
         (OsPath.join "artifact/transformed_data/train" ("housing" +:+ ".npz")) train_arr;
       Util.SavedArray
         (OsPath.join "artifact/transformed_data/test" ("housing" +:+ ".npz")) test_arr;
       Util.SavedObject "artifact/preprocessed/preprocessed.pkl" obj].
Proof.
  apply (initiate_names_outputs_after_sources sample_library sample_world
           sample_transformation sample_artifact "housing" "housing");
    by vm_compute.
Defined.

(** ** Runs: what a result tells about the steps *)

(** In a goal [raised_or r cause rest]: the step [r] returned, go on with
    [rest]; or [r] is the step that raised. *)
Ltac past_step :=
  lazymatch goal with
  | |- _ → raised_or _ _ _ =>
      let Hbody := fresh "Hbody" in
      intros Hbody; right; eexists; split; [reflexivity|]; cbn beta; revert Hbody
  end.
Ltac failed_step :=
  lazymatch goal with
  | |- _ → raised_or _ _ _ => intros [= <-]; by left
  end.

(** Run a block again along the results its steps are known to have. *)
Lemma bind_Ok_eq {A B} (r : result A) (f : A → result B) (a : A) :
  r = Ok a → r ≫= f = f a.
Proof. by intros ->. Qed.

Ltac replay_steps :=
  repeat (erewrite bind_Ok_eq by (eassumption || reflexivity); cbn beta iota).

Section RunLemmas.
Context (lib : Sklearn.Library).
Implicit Types world : Util.World (DataTransformation.preprocessing_t lib).
Implicit Types self : DataTransformation.t.

Lemma initiate_Ok_inv world self art :
  (DataTransformation.initiate_data_tranformation lib world self).1 = Ok art →
  every_step_returned lib world self art
    (DataTransformation.initiate_data_tranformation lib world self).2.
Proof.
  unfold DataTransformation.initiate_data_tranformation, Util.io_try_except_HousingException.
  cbn [fst snd]. rewrite try_except_Ok.
  fold (train_path self) (test_path self) (schema_path self).
  io_step obj H1; [|done]. io_step train_df H2; [|done]. io_step test_df H3; [|done].
  io_step schema H4; [|done]. io_step target H5; [|done].
  io_step X_train H6; [|done]. io_step y_train H7; [|done].
  io_step X_test H8; [|done]. io_step y_test H9; [|done].
  io_step fitted H10; [|done]. destruct fitted as [obj' A_train].
  io_step A_test H11; [|done]. io_step train_arr H12; [|done].
  io_step test_arr H13; [|done].
  io_step u1 H14; [|done]. io_step u2 H15; [|done]. io_step u3 H16; [|done].
  cbn [fst snd Util.pure]. intros [= <-].
  destruct u1, u2, u3.
  exists obj, train_df, test_df, schema, target, X_train, y_train, X_test, y_test,
    obj', A_train, A_test, train_arr, test_arr.
  repeat split; done.
Qed.

Lemma initiate_Raise_inv world self e :
  (DataTransformation.initiate_data_tranformation lib world self).1 = Raise e →
  ∃ cause, e = HousingException cause ∧ raised_by_a_step lib world self cause.
Proof.
  unfold DataTransformation.initiate_data_tranformation, Util.io_try_except_HousingException.
  cbn [fst snd]. rewrite try_except_Raise. intros (cause & Hbody & ->).
  exists cause. split; [done|]. revert Hbody.
  fold (train_path self) (test_path self) (schema_path self).
  fold (file_path_train self) (file_path_test self) (object_path self).
  unfold raised_by_a_step.
  io_step obj H1; [past_step|failed_step].
  io_step train_df H2; [past_step|failed_step].
  io_step test_df H3; [past_step|failed_step].
  io_step schema H4; [past_step|failed_step].
  io_step target H5; [past_step|failed_step].
  io_step X_train H6; [past_step|failed_step].
  io_step y_train H7; [past_step|failed_step].
  io_step X_test H8; [past_step|failed_step].
  io_step y_test H9; [past_step|failed_step].
  io_step fitted H10; [past_step|failed_step]. destruct fitted as [obj' A_train].
  cbn [fst snd].
  io_step A_test H11; [past_step|failed_step].
  io_step train_arr H12; [past_step|failed_step].
  io_step test_arr H13; [past_step|failed_step].
  io_step u1 H14; [past_step|failed_step].
  io_step u2 H15; [past_step|failed_step].
  io_step u3 H16; [past_step|failed_step].
  cbn [fst snd Util.pure]. intros [=].
Qed.

(** What a run wrote first and third comes out of its training stage. *)
Lemma initiate_train_stage world self :
  let run := DataTransformation.initiate_data_tranformation lib world self in
  (∀ x, train_array_written run.2 = Some x →
        ∃ obj' arr, train_stage lib world self = Ok (obj', arr) ∧
                    x = (file_path_train self, arr)) ∧
  (∀ o, object_written run.2 = Some o →
        ∃ obj' arr, train_stage lib world self = Ok (obj', arr) ∧
                    o = (object_path self, obj')).
Proof.
  unfold DataTransformation.initiate_data_tranformation, Util.io_try_except_HousingException,
    train_stage.
  cbn [fst snd].
  fold (train_path self) (test_path self) (schema_path self).
  fold (file_path_train self) (file_path_test self) (object_path self).
  io_step obj H1; [|done]. io_step train_df H2; [|done]. io_step test_df H3; [|done].
  io_step schema H4; [|done]. io_step target H5; [|done].
  io_step X_train H6; [|done]. io_step y_train H7; [|done].
  io_step X_test H8; [|done]. io_step y_test H9; [|done].
  io_step fitted H10; [|done]. destruct fitted as [obj' A_train].
  io_step A_test H11; [|done]. io_step train_arr H12; [|done].
  io_step test_arr H13; [|done].
  io_step u1 H14; [|done].
  io_step u2 H15; [|split; [intros x [= <-]; replay_steps; by eexists _, _|done]].
  io_step u3 H16; [|split; [intros x [= <-]; replay_steps; by eexists _, _|done]].
  cbn [fst snd Util.pure train_array_written object_written].
  split; intros x [= <-]; replay_steps; by eexists _, _.
Qed.

Lemma get_data_transformer_object_ext (w1 w2 : Util.World (DataTransformation.preprocessing_t lib))
    self :
  (∀ p, Util.read_yaml_file w1 p = Util.read_yaml_file w2 p) →
  DataTransformation.get_data_transformer_object lib w1 self =
  DataTransformation.get_data_transformer_object lib w2 self.
Proof.
  intros Hyaml. unfold DataTransformation.get_data_transformer_object. by rewrite Hyaml.
Qed.

Lemma train_stage_ext (w1 w2 : Util.World (DataTransformation.preprocessing_t lib)) self :
  differ_only_in_test_table lib self w1 w2 →
  train_stage lib w1 self = train_stage lib w2 self.
Proof.
  intros (Hpaths & Hyaml & Hload & _ & _). unfold train_stage.
  rewrite (get_data_transformer_object_ext w1 w2 self Hyaml).
  by rewrite (Hload _ _ Hpaths), Hyaml.
Qed.

End RunLemmas.

(** ** No leakage from the test table *)

(** C5. In every run the transformer is fitted on the training inputs only
    and applied to the test inputs with [transform] alone; so for two runs
    that differ only in the content of the test table, the training array
    written and the fitted object written (imputation statistics,
    categories, scaler state) are the same, and in two successful runs the
    same fitted object and the same transformed training array come out of
    [fit_transform] on the training inputs. *)
Theorem fitting_ignores_the_test_table (lib : Sklearn.Library)
    (w1 w2 : Util.World (DataTransformation.preprocessing_t lib))
    (self : DataTransformation.t) :
  differ_only_in_test_table lib self w1 w2 →
  let run1 := DataTransformation.initiate_data_tranformation lib w1 self in
  let run2 := DataTransformation.initiate_data_tranformation lib w2 self in
  (∀ x1 x2, train_array_written run1.2 = Some x1 →
            train_array_written run2.2 = Some x2 → x1 = x2) ∧
  (∀ o1 o2, object_written run1.2 = Some o1 →
            object_written run2.2 = Some o2 → o1 = o2) ∧
  (∀ art1 art2, run1.1 = Ok art1 → run2.1 = Ok art2 →
     ∃ obj' A_train A_test1 A_test2 y_train train_arr,
       fitted_on_train_applied_to_test lib w1 self obj' A_train A_test1 ∧
       fitted_on_train_applied_to_test lib w2 self obj' A_train A_test2 ∧
       c_ (Pandas.as_cells A_train) [y_train] = Ok train_arr ∧
       train_array_written run1.2 = Some (file_path_train self, train_arr) ∧
       train_array_written run2.2 = Some (file_path_train self, train_arr) ∧
       object_written run1.2 = Some (object_path self, obj') ∧
       object_written run2.2 = Some (object_path self, obj')).
Proof.
  intros Hdiff run1 run2.
  pose proof (train_stage_ext lib w1 w2 self Hdiff) as Hstage.
  destruct (initiate_train_stage lib w1 self) as [Harr1 Hobj1].
  destruct (initiate_train_stage lib w2 self) as [Harr2 Hobj2].
  fold run1 in Harr1, Hobj1. fold run2 in Harr2, Hobj2.
  split; [|split].
  - intros x1 x2 (o1 & a1 & Hs1 & ->)%Harr1 (o2 & a2 & Hs2 & ->)%Harr2. congruence.
  - intros x1 x2 (o1 & a1 & Hs1 & ->)%Hobj1 (o2 & a2 & Hs2 & ->)%Hobj2. congruence.
  - intros art1 art2 Hrun1 Hrun2.
    apply initiate_Ok_inv in Hrun1, Hrun2. fold run1 in Hrun1. fold run2 in Hrun2.
    destruct Hrun1 as (obj & train_df & test_df & schema & target & X_train & y_train
      & X_test & y_test & obj' & A_train & A_test & train_arr & test_arr
      & Hget & Htrain & Htestdf & Hschema & Htarget & Hdrop & Hy & Hdropt & _
      & Hfit & Htest & Hc & _ & _ & _ & _ & Hlog1 & _).
    destruct Hrun2 as (obj2 & train_df2 & test_df2 & schema2 & target2 & X_train2 & y_train2
      & X_test2 & y_test2 & obj2' & A_train2 & A_test2 & train_arr2 & test_arr2
      & Hget2 & Htrain2 & Htestdf2 & Hschema2 & Htarget2 & Hdrop2 & Hy2 & Hdropt2 & _
      & Hfit2 & Htest2 & Hc2 & _ & _ & _ & _ & Hlog2 & _).
    destruct Hdiff as (Hpaths & Hyaml & Hload & _ & _).
    rewrite <- (get_data_transformer_object_ext lib w1 w2 self Hyaml) in Hget2.
    assert (Util.load_data w1 (train_path self) (schema_path self) = Ok train_df2) as Htrain2'
      by (by rewrite (Hload _ _ Hpaths)).
    assert (Util.read_yaml_file w1 (schema_path self) = Ok schema2) as Hschema2'
      by (by rewrite Hyaml).
    rewrite Hget in Hget2. injection Hget2 as <-.
    rewrite Htrain in Htrain2'. injection Htrain2' as <-.
    rewrite Hschema in Hschema2'. injection Hschema2' as <-.
    rewrite Htarget in Htarget2. injection Htarget2 as <-.
    rewrite Hdrop in Hdrop2. injection Hdrop2 as <-.
    rewrite Hfit in Hfit2. injection Hfit2 as <- <-.
    rewrite Hy in Hy2. injection Hy2 as <-.
    rewrite Hc in Hc2. injection Hc2 as <-.
    exists obj', A_train, A_test, A_test2, y_train, train_arr.
    rewrite Hlog1, Hlog2. cbn.
    split_and!; try done.
    + by exists obj, train_df, test_df, schema, target, X_train, X_test.
    + exists obj, train_df, test_df2, schema, target, X_train, X_test2.
      split_and!; try done.
      by rewrite <- (get_data_transformer_object_ext lib w1 w2 self Hyaml).
Qed.

Lemma fitting_ignores_the_test_table_witness :
  let run1 := DataTransformation.initiate_data_tranformation sample_library
                sample_world sample_transformation in
  let run2 := DataTransformation.initiate_data_tranformation sample_library
                (sample_world_with sample_test_other) sample_transformation in
  (∀ x1 x2, train_array_written run1.2 = Some x1 →
            train_array_written run2.2 = Some x2 → x1 = x2) ∧
  (∀ o1 o2, object_written run1.2 = Some o1 →
            object_written run2.2 = Some o2 → o1 = o2) ∧
  (∀ art1 art2, run1.1 = Ok art1 → run2.1 = Ok art2 →
     ∃ obj' A_train A_test1 A_test2 y_train train_arr,
       fitted_on_train_applied_to_test sample_library sample_world sample_transformation
         obj' A_train A_test1 ∧
       fitted_on_train_applied_to_test sample_library (sample_world_with sample_test_other)
         sample_transformation obj' A_train A_test2 ∧
       c_ (Pandas.as_cells A_train) [y_train] = Ok train_arr ∧
       train_array_written run1.2 = Some (file_path_train sample_transformation, train_arr) ∧
       train_array_written run2.2 = Some (file_path_train sample_transformation, train_arr) ∧
       object_written run1.2 = Some (object_path sample_transformation, obj') ∧
       object_written run2.2 = Some (object_path sample_transformation, obj')).
Proof.
  apply (fitting_ignores_the_test_table sample_library sample_world
           (sample_world_with sample_test_other) sample_transformation).
  split_and!.
  - discriminate.
  - reflexivity.
  - intros p s Hp. unfold sample_world, sample_world_with. simpl.
    repeat case_decide; done.
  - reflexivity.
  - reflexivity.
Defined.

(** ** Failures surface as the domain error *)

Lemma raised_or_Ok {A} (a : A) (cause : exn) (rest : A → Prop) :
  raised_or (Ok a) cause rest ↔ rest a.
Proof.
  unfold raised_or. split.
  - intros [[=]|(a' & [= <-] & Hrest)]. done.
  - intros Hrest. right. by exists a.
Qed.

Lemma raised_or_Raise {A} (e cause : exn) (rest : A → Prop) :
  raised_or (Raise e) cause rest ↔ e = cause.
Proof.
  unfold raised_or. split.
  - intros [[= ->]|(a' & [=] & _)]. done.
  - intros ->. by left.
Qed.

(** Case on the result of the step at the head of a block of [result]. *)
Ltac result_step :=
  lazymatch goal with
  | |- _ ↔ raised_or (Ok _) _ _ => rewrite raised_or_Ok
  | |- _ ↔ raised_or ?r _ _ =>
      destruct r; simpl;
      [rewrite raised_or_Ok | rewrite raised_or_Raise; split; congruence]
  end.

Lemma init_Raise_iff flag a b c d names cause :
  FeatureGenerator.__init__ flag a b c d (Some names) = Raise (HousingException cause) ↔
  raised_in_init names cause.
Proof.
  unfold FeatureGenerator.__init__, raised_in_init.
  rewrite try_except_Raise.
  assert (∀ body : result FeatureGenerator.t,
            (∃ c', body = Raise c' ∧ HousingException cause = HousingException c')
            ↔ body = Raise cause) as ->.
  { intros body. split; [by intros (c' & -> & [= ->])|by exists cause]. }
  repeat result_step. simpl. split; [intros [=]|done].
Qed.

Lemma transform_Raise_iff fg X cause :
  FeatureGenerator.transform fg X = Raise (HousingException cause) ↔
  raised_in_transform fg X cause.
Proof.
  unfold FeatureGenerator.transform, raised_in_transform.
  rewrite try_except_Raise.
  assert (∀ body : result (ndarray float),
            (∃ c', body = Raise c' ∧ HousingException cause = HousingException c')
            ↔ body = Raise cause) as ->.
  { intros body. split; [by intros (c' & -> & [= ->])|by exists cause]. }
  repeat result_step.
  destruct (FeatureGenerator.add_bedrooms_per_room fg).
  - repeat result_step. split; [intros [=]|done].
  - repeat result_step. split; [intros [=]|done].
Qed.

(** A step of a run raised, or returned: follow the run past it. *)
Ltac follow_step x :=
  lazymatch goal with
  | |- raised_or ?r _ _ → _ =>
      let Hr := fresh "Hr" in
      let Hrest := fresh "Hrest" in
      intros [Hr|(x & Hr & Hrest)];
      [ rewrite Hr; first [rewrite io_bind_pure_Raise | rewrite io_bind_writing_Raise];
        reflexivity
      | rewrite Hr; first [rewrite io_bind_pure_Ok | rewrite io_bind_writing_Ok];
        cbn [fst snd]; revert Hrest; cbn beta ]
  end.

Section Failures.
Context (lib : Sklearn.Library).
Implicit Types world : Util.World (DataTransformation.preprocessing_t lib).
Implicit Types self : DataTransformation.t.

Lemma get_object_Raise_iff world self cause :
  DataTransformation.get_data_transformer_object lib world self
    = Raise (HousingException cause) ↔
  raised_in_get_object lib world self cause.
Proof.
  unfold DataTransformation.get_data_transformer_object, raised_in_get_object.
  fold (schema_path self).
  rewrite try_except_Raise.
  assert (∀ body : result (DataTransformation.preprocessing_t lib),
            (∃ c', body = Raise c' ∧ HousingException cause = HousingException c')
            ↔ body = Raise cause) as ->.
  { intros body. split; [by intros (c' & -> & [= ->])|by exists cause]. }
  repeat result_step. split; [intros [=]|done].
Qed.

Lemma initiate_step_failure world self cause :
  raised_by_a_step lib world self cause →
  (DataTransformation.initiate_data_tranformation lib world self).1
    = Raise (HousingException cause).
Proof.
  unfold DataTransformation.initiate_data_tranformation, Util.io_try_except_HousingException,
    raised_by_a_step.
  cbn [fst snd].
  fold (train_path self) (test_path self) (schema_path self).
  fold (file_path_train self) (file_path_test self) (object_path self).
  follow_step obj. follow_step train_df. follow_step test_df. follow_step schema.
  follow_step target. follow_step X_train. follow_step y_train. follow_step X_test.
  follow_step y_test. follow_step fitted. destruct fitted as [obj' A_train].
  cbn [fst snd].
  follow_step A_test. follow_step train_arr. follow_step test_arr.
  follow_step u1. follow_step u2. follow_step u3. done.
Qed.

End Failures.

Lemma try_except_Raise_cause {A} (body : result A) (e : exn) :
  try_except_HousingException body = Raise e →
  ∃ cause, e = HousingException cause ∧
           try_except_HousingException body = Raise (HousingException cause).
Proof. intros He. destruct body; simplify_eq/=. by eexists. Qed.

(** C9. Whatever fails inside a public operation of [FeatureGenerator] or
    [DataTransformation] comes out as the one domain error carrying the
    failure as its cause, and nothing is swallowed: an operation raises
    exactly when one of its steps raised (the steps before it having
    returned), it then raises [HousingException] with the exception of that
    step as cause, and a run that returns has had every step return.  A
    subscript outside the matrix is one such failure: its [IndexError] is the
    cause. *)
Theorem failures_are_reraised_as_HousingException (lib : Sklearn.Library)
    (world : Util.World (DataTransformation.preprocessing_t lib))
    (self : DataTransformation.t) :
  (∀ flag a b c d columns e,
     FeatureGenerator.__init__ flag a b c d columns = Raise e →
     ∃ names cause,
       columns = Some names ∧ e = HousingException cause ∧ raised_in_init names cause) ∧
  (∀ flag a b c d names cause,
     raised_in_init names cause →
     FeatureGenerator.__init__ flag a b c d (Some names) = Raise (HousingException cause)) ∧
  (∀ fg X e,
     FeatureGenerator.transform fg X = Raise e →
     ∃ cause, e = HousingException cause ∧ raised_in_transform fg X cause) ∧
  (∀ fg X cause,
     raised_in_transform fg X cause →
     FeatureGenerator.transform fg X = Raise (HousingException cause)) ∧
  (∀ fg X,
     ¬ (- Z.of_nat (ncols X) ≤ FeatureGenerator.total_rooms_ix fg < Z.of_nat (ncols X))%Z →
     FeatureGenerator.transform fg X = Raise (HousingException IndexError)) ∧
  (∀ config ingestion validation,
     DataTransformation.__init__ config ingestion validation =
       Ok (DataTransformation.Build config ingestion validation)) ∧
  (∀ e,
     DataTransformation.get_data_transformer_object lib world self = Raise e →
     ∃ cause, e = HousingException cause ∧ raised_in_get_object lib world self cause) ∧
  (∀ cause,
     raised_in_get_object lib world self cause →
     DataTransformation.get_data_transformer_object lib world self
       = Raise (HousingException cause)) ∧
  (∀ e,
     (DataTransformation.initiate_data_tranformation lib world self).1 = Raise e →
     ∃ cause, e = HousingException cause ∧ raised_by_a_step lib world self cause) ∧
  (∀ cause,
     raised_by_a_step lib world self cause →
     (DataTransformation.initiate_data_tranformation lib world self).1
       = Raise (HousingException cause)) ∧
  (∀ art,
     (DataTransformation.initiate_data_tranformation lib world self).1 = Ok art →
     every_step_returned lib world self art
       (DataTransformation.initiate_data_tranformation lib world self).2).
Proof.
  split_and!; [| | | | |done| | | | |].
  - intros flag a b c d [names|] e He; [|done].
    apply try_except_Raise_cause in He as (cause & -> & He).
    exists names, cause. repeat split; try done. by apply (init_Raise_iff flag a b c d).
  - intros flag a b c d names cause. apply init_Raise_iff.
  - intros fg X e He.
    apply try_except_Raise_cause in He as (cause & -> & He).
    exists cause. split; [done|]. by apply transform_Raise_iff.
  - intros fg X cause. apply transform_Raise_iff.
  - intros fg X Hout. apply transform_Raise_iff.
    unfold raised_in_transform. left. unfold column.
    destruct (axis_index (ncols X) (FeatureGenerator.total_rooms_ix fg)) eqn:Hix.
    + apply axis_index_lt in Hix as Hlt. exfalso. apply Hout.
      unfold axis_index in Hix. repeat case_decide; simplify_eq; lia.
    + apply axis_index_Raise in Hix as [_ ->]. done.
  - intros e He.
    apply try_except_Raise_cause in He as (cause & -> & He).
    exists cause. split; [done|]. by apply get_object_Raise_iff.
  - intros cause. apply get_object_Raise_iff.
  - apply initiate_Raise_inv.
  - apply initiate_step_failure.
  - apply initiate_Ok_inv.
Qed.

(** ** Categories seen only in the test table *)

Lemma mapM_Ok_lookup {A B} (f : A → result B) (l : list A) (ys : list B) i x :
  mapM f l = Ok ys → l !! i = Some x → ∃ y, ys !! i = Some y ∧ f x = Ok y.
Proof.
  revert ys i. induction l as [|a l IH]; intros ys i Hm Hi; [done|].
  simpl in Hm. apply bind_Ok in Hm as (y & Hy & Hm).
  apply bind_Ok in Hm as (k & Hk & [= <-]).
  destruct i as [|i]; simpl in *.
  - injection Hi as ->. by exists y.
  - by apply IH.
Qed.

(** If every failure of [f] is [E] and [f] fails somewhere on [l], then
    [mapM f l] fails with [E]. *)
Lemma mapM_Raise {A B} (f : A → result B) (l : list A) (E : exn) x e :
  (∀ a e', f a = Raise e' → e' = E) →
  x ∈ l → f x = Raise e →
  mapM f l = Raise E.
Proof.
  intros HE Hx Hfx. induction l as [|a l IH]; [by apply elem_of_nil in Hx|].
  simpl. destruct (f a) as [y|e'] eqn:Hfa; simpl.
  - apply elem_of_cons in Hx as [->|Hx]; [congruence|].
    by rewrite (IH Hx).
  - by rewrite (HE _ _ Hfa).
Qed.

Lemma insert_category_subset x sorted c :
  c ∈ Sklearn.insert_category x sorted → c = x ∨ c ∈ sorted.
Proof.
  induction sorted as [|y rest IH]; simpl.
  - intros ->%list_elem_of_singleton. by left.
  - destruct (Pandas.cell_eqb x y); [by right|].
    destruct (Sklearn.cell_before x y).
    + intros [->|Hc]%elem_of_cons; [by left|by right].
    + intros [->|Hc]%elem_of_cons; [right; left|].
      destruct (IH Hc) as [->|Hin]; [by left|right; by right].
Qed.

Lemma categories_of_subset col cats c :
  Sklearn.categories_of col = Ok cats → c ∈ cats → c ∈ col.
Proof.
  unfold Sklearn.categories_of.
  destruct (forallb Sklearn.is_num col || forallb Sklearn.is_str col); [|done].
  intros [= <-]. clear. induction col as [|x col IH]; simpl; [done|].
  intros [->|Hc]%insert_category_subset; [left|right; auto].
Qed.

Lemma cell_min_elem m rest r :
  Sklearn.cell_min m rest = Ok r → r = m ∨ r ∈ rest.
Proof.
  unfold Sklearn.cell_min.
  assert (∀ acc r,
            foldl (λ acc x, m ← acc; lt ← Sklearn.cell_ltb x m; Ok (if lt : bool then x else m))
                  acc rest = Ok r →
            ∃ m0, acc = Ok m0 ∧ (r = m0 ∨ r ∈ rest)) as Hgen.
  { clear. induction rest as [|x rest IH]; intros acc r; simpl.
    - intros ->. eauto.
    - intros (m1 & Hacc & [->|Hr])%IH.
      + apply bind_Ok in Hacc as (m0 & -> & Hlt).
        apply bind_Ok in Hlt as (lt & _ & [= <-]).
        exists m0. split; [done|]. destruct lt; [right; left|by left].
      + apply bind_Ok in Hacc as (m0 & -> & _).
        exists m0. split; [done|]. right. by right. }
  intros (m0 & [= <-] & Hr)%Hgen. done.
Qed.

(** The fill value of a column that has a value present is one of the
    values of the column. *)
Lemma most_frequent_present col stat :
  Sklearn.most_frequent col = Ok stat →
  (∃ c, c ∈ col ∧ Pandas.isna c = false) →
  ∃ fill, stat = Some fill ∧ fill ∈ col ∧ Pandas.isna fill = false.
Proof.
  unfold Sklearn.most_frequent. intros Hstat (c & Hc & Hna).
  set (present := filter (λ c, Pandas.isna c = false) col) in *.
  assert (c ∈ present) as Hpresent by (by apply list_elem_of_filter).
  assert (max_list ((λ v, Sklearn.count_of v present) <$> present)
            ∈ (λ v, Sklearn.count_of v present) <$> present) as Hmax.
  { apply max_list_elem_of. intros Hnil. apply fmap_nil_inv in Hnil.
    rewrite Hnil in Hpresent. by apply elem_of_nil in Hpresent. }
  apply list_elem_of_fmap in Hmax as (v & Hv & Hvin).
  lazymatch type of Hstat with
  | match ?cands with _ => _ end = _ =>
      assert (v ∈ cands) as Hin by (by apply list_elem_of_filter);
      destruct cands as [|m rest] eqn:Hcand
  end.
  - by apply elem_of_nil in Hin.
  - destruct (Sklearn.cell_min m rest) as [r|] eqn:Hmin; simpl in Hstat; [|done].
    injection Hstat as <-.
    exists r. split; [done|].
    assert (r ∈ m :: rest) as Hr.
    { apply cell_min_elem in Hmin as [->|Hr]; [left|by right]. }
    rewrite <- Hcand in Hr. apply list_elem_of_filter in Hr as [_ Hr].
    by apply list_elem_of_filter in Hr as [? ?].
Qed.

Lemma mapM_Raise_only {A B} (f : A → result B) (l : list A) (E e : exn) :
  (∀ a e', f a = Raise e' → e' = E) → mapM f l = Raise e → e = E.
Proof.
  intros HE. induction l as [|a l IH]; simpl; [done|].
  destruct (f a) as [y|e'] eqn:Hfa; simpl.
  - destruct (mapM f l) as [k|e'']; simpl; [done|]. intros [= <-]. by apply IH.
  - intros [= <-]. by eapply HE.
Qed.

(** The same column, imputed with the same fill value, sits at the same
    place of two imputed tables. *)
Lemma impute_aligned stats (Xs Ys : list (list Pandas.cell)) j fill x y :
  stats !! j = Some (Some fill) → Xs !! j = Some x → Ys !! j = Some y →
  ∃ k, Sklearn.impute stats Xs !! k = Sklearn.impute_column (Some fill) x ∧
       Sklearn.impute stats Ys !! k = Sklearn.impute_column (Some fill) y.
Proof.
  unfold Sklearn.impute.
  revert Xs Ys j. induction stats as [|s stats IH]; intros Xs Ys j Hs Hx Hy; [done|].
  destruct Xs as [|x0 Xs]; [done|]. destruct Ys as [|y0 Ys]; [done|].
  destruct j as [|j]; simpl in Hs, Hx, Hy.
  - simplify_eq. by exists 0.
  - destruct (IH Xs Ys j Hs Hx Hy) as (k & Hkx & Hky).
    destruct s as [f0|]; [by exists (S k)|by exists k].
Qed.

Lemma select_lookup df labels X j label :
  Sklearn.select df labels = Ok X → labels !! j = Some label →
  ∃ c, X !! j = Some (label, c) ∧ Pandas.getitem df label = Ok c.
Proof.
  intros Hsel Hj.
  destruct (mapM_Ok_lookup _ _ _ _ _ Hsel Hj) as ([l c] & Hy & Hf).
  destruct (Pandas.getitem df label) as [c'|]; [|done].
  injection Hf as <- <-. by exists c'.
Qed.

Lemma encode_unknown cats X k catk col v :
  cats !! k = Some catk → X !! k = Some col → v ∈ col →
  existsb (Pandas.cell_eqb v) catk = false →
  Sklearn.encode Sklearn.handle_unknown_error cats X = Raise ValueError.
Proof.
  intros Hcats HX Hv Hunknown. unfold Sklearn.encode.
  destruct X as [|col0 X']; [done|].
  case_decide; [|done].
  assert (∀ (c x : list Pandas.cell) e',
            Sklearn.encode_column Sklearn.handle_unknown_error c x = Raise e' →
            e' = ValueError) as Honly.
  { intros c x e'. unfold Sklearn.encode_column. apply mapM_Raise_only.
    intros a e''. destruct (existsb (Pandas.cell_eqb a) c); [done|]. by intros [= <-]. }
  rewrite (mapM_Raise _ _ ValueError (catk, col) ValueError); [done| | |].
  - intros [c x] e'. apply Honly.
  - apply list_elem_of_lookup. exists k. rewrite lookup_zip_with, Hcats. simpl.
    by rewrite HX.
  - simpl. unfold Sklearn.encode_column.
    apply (mapM_Raise _ _ ValueError v ValueError); [|done|by rewrite Hunknown].
    intros a e''. destruct (existsb (Pandas.cell_eqb a) catk); [done|]. by intros [= <-].
Qed.

(** The imputer and the encoder of the categorical pipeline, fitted on [Xc],
    applied to a table [Xt] that has an unseen value in one of its
    columns. *)
Lemma imputer_encoder_unseen (Xc Xt : list (string * list Pandas.cell))
    imp' X1 enc' X2 j label label' tcol col v :
  Sklearn.imputer_fit_transform (Sklearn.MostFrequent None) Xc = Ok (imp', X1) →
  Sklearn.encoder_fit_transform (Sklearn.OneHotEncoder_init None) X1 = Ok (enc', X2) →
  Xc !! j = Some (label, tcol) →
  Xt !! j = Some (label', col) →
  (∃ c, c ∈ tcol ∧ Pandas.isna c = false) →
  v ∈ col → Pandas.isna v = false →
  (∀ c, c ∈ tcol → Pandas.cell_eqb v c = false) →
  Sklearn.imputer_transform imp' Xt ≫= Sklearn.encoder_transform enc' = Raise ValueError.
Proof.
  intros Himp Henc Hc Ht Hpresent Hv Hna Hunseen.
  unfold Sklearn.imputer_fit_transform in Himp. case_decide; [done|].
  apply bind_Ok in Himp as (stats & Hstats & [= <- <-]).
  unfold Sklearn.encoder_fit_transform in Henc.
  apply bind_Ok in Henc as (cats & Hcats & Henc).
  apply bind_Ok in Henc as (Y & _ & [= <- <-]).
  unfold Sklearn.imputer_transform. simpl.
  case_decide; [done|]. case_decide; [|done]. simpl.
  assert (Xc.*2 !! j = Some tcol) as Hc2 by (by rewrite list_lookup_fmap, Hc).
  assert (Xt.*2 !! j = Some col) as Ht2 by (by rewrite list_lookup_fmap, Ht).
  destruct (mapM_Ok_lookup _ _ _ _ _ Hstats Hc2) as (s & Hs & Hmf).
  destruct (most_frequent_present _ _ Hmf Hpresent) as (fill & -> & Hfill & Hfillna).
  destruct (impute_aligned stats Xc.*2 Xt.*2 j fill tcol col Hs Hc2 Ht2) as (k & Hk1 & Hk2).
  simpl in Hk1, Hk2.
  destruct (mapM_Ok_lookup _ _ _ _ _ Hcats Hk1) as (catk & Hcatk & Hcatsof).
  eapply (encode_unknown _ _ k catk _ v); [done|exact Hk2| |].
  - apply list_elem_of_fmap. exists v. by rewrite Hna.
  - destruct (existsb (Pandas.cell_eqb v) catk) eqn:Hex; [|done].
    apply existsb_exists in Hex as (c & Hcin & Hceq).
    apply list_elem_of_In in Hcin.
    apply (categories_of_subset _ _ _ Hcatsof) in Hcin.
    apply list_elem_of_fmap in Hcin as (c0 & -> & Hc0).
    destruct (Pandas.isna c0); rewrite Hunseen in Hceq; done.
Qed.

Section Unseen.
Context (lib : Sklearn.Library).
Implicit Types world : Util.World (DataTransformation.preprocessing_t lib).

Lemma get_object_Ok_inv world self obj :
  DataTransformation.get_data_transformer_object lib world self = Ok obj →
  ∃ generator numerical_columns categorical_columns,
    obj = Sklearn.Columns
            ((Sklearn.SimpleImputer_median lib, generator, Sklearn.StandardScaler_init lib true,
              numerical_columns),
             (Sklearn.MostFrequent None, Sklearn.OneHotEncoder_init None,
              Sklearn.StandardScaler_init lib false, categorical_columns))
            None.
Proof.
  unfold DataTransformation.get_data_transformer_object. rewrite try_except_Ok.
  intros (schema & _ & Hobj)%bind_Ok.
  apply bind_Ok in Hobj as (num & _ & Hobj).
  apply bind_Ok in Hobj as (cat & _ & Hobj).
  apply bind_Ok in Hobj as (fg & _ & [= <-]).
  by exists fg, num, cat.
Qed.

Lemma select_Raise df labels e : Sklearn.select df labels = Raise e → e = ValueError.
Proof.
  unfold Sklearn.select. apply mapM_Raise_only.
  intros l e'. destruct (Pandas.getitem df l); [done|]. by intros [= <-].
Qed.

Lemma drop_Ok_getitem (df X : list (string * list Pandas.cell)) label :
  Pandas.drop df label = Ok X → ∃ y, Pandas.getitem df label = Ok y.
Proof.
  unfold Pandas.drop, Pandas.has_column. case_bool_decide as Hin; [|done]. intros _.
  induction df as [|[l c] df IH]; [by apply elem_of_nil in Hin|].
  simpl. case_decide; [by eexists|].
  apply IH. simpl in Hin. apply elem_of_cons in Hin as [?|?]; [congruence|done].
Qed.

(** C4, as the code has it.  The encoder is built by [OneHotEncoder()], so
    with the policy ['error'].  Hence, once the transformer has been fitted
    on the training inputs: if the test inputs hold, in a one-hot-encoded
    column, a value present that does not occur in that column of the
    training inputs (the training column having some value present), then
    [transform] on the test inputs raises: the [ValueError] of the encoder,
    unless the fitted numeric pipeline has raised before on its columns of
    the test inputs.  And every run of [initiate_data_tranformation] that
    loads two tables with these input features ends in the domain error
    caused by that exception, nothing written. *)
Theorem unseen_category_raises world self obj train test obj' A_train label tcol col v :
  DataTransformation.get_data_transformer_object lib world self = Ok obj →
  Sklearn.fit_transform (DataTransformation.preprocessing lib) obj train = Ok (obj', A_train) →
  label ∈ one_hot_columns obj →
  Pandas.getitem train label = Ok tcol →
  (∃ c, c ∈ tcol ∧ Pandas.isna c = false) →
  Pandas.getitem test label = Ok col →
  v ∈ col → Pandas.isna v = false →
  (∀ c, c ∈ tcol → Pandas.cell_eqb v c = false) →
  ∃ e, Sklearn.transform (DataTransformation.preprocessing lib) obj' test = Raise e ∧
       (e = ValueError ∨
        ∃ fitted,
          Sklearn.transformers_ obj' = Some fitted ∧
          Sklearn.transform_one (DataTransformation.num_pipeline lib) fitted.1
            (Sklearn.transformers obj).1.2 test = Raise e) ∧
       ∀ train_df test_df schema target,
         Util.load_data world (train_path self) (schema_path self) = Ok train_df →
         Util.load_data world (test_path self) (schema_path self) = Ok test_df →
         Util.read_yaml_file world (schema_path self) = Ok schema →
         Util.target_column schema = Some target →
         Pandas.drop train_df target = Ok train →
         Pandas.drop test_df target = Ok test →
         DataTransformation.initiate_data_tranformation lib world self
           = (Raise (HousingException e), []).
Proof.
  intros Hget Hfit Hlabel Htcol Hpresent Hcol Hv Hna Hunseen.
  assert (∃ e, Sklearn.transform (DataTransformation.preprocessing lib) obj' test = Raise e ∧
               (e = ValueError ∨
                ∃ fitted,
                  Sklearn.transformers_ obj' = Some fitted ∧
                  Sklearn.transform_one (DataTransformation.num_pipeline lib) fitted.1
                    (Sklearn.transformers obj).1.2 test = Raise e)) as (e & Hraise & Hcause).
  { pose proof Hget as (fg & num_cols & cat_cols & ->)%get_object_Ok_inv.
    unfold one_hot_columns in Hlabel. simpl in Hlabel.
    apply list_elem_of_lookup in Hlabel as [j Hj].
    unfold DataTransformation.preprocessing, Sklearn.ColumnTransformer_estimator in *.
    cbn [Sklearn.fit_transform Sklearn.transform Sklearn.transformers Sklearn.transformers_]
      in *.
    apply bind_Ok in Hfit as ([t1' Y1] & Hnum & Hfit).
    apply bind_Ok in Hfit as ([t2' Y2] & Hcat & Hfit).
    apply bind_Ok in Hfit as (Y & _ & [= <- <-]).
    cbn [Sklearn.transformers Sklearn.transformers_ fst snd].
    destruct (Sklearn.transform_one (DataTransformation.num_pipeline lib) t1' num_cols test)
      as [Y1t|e] eqn:Hnumt.
    2:{ exists e. split; [done|]. right. by exists (t1', t2'). }
    exists ValueError. split; [|by left]. simpl.
    unfold Sklearn.fit_transform_one in Hcat. unfold Sklearn.transform_one.
    destruct cat_cols as [|l0 cat_cols]; [done|].
    set (labels := l0 :: cat_cols) in *.
    apply bind_Ok in Hcat as (Xc & Hselc & Hcat).
    apply bind_Ok in Hcat as ([t2 Y2'] & Hcatfit & [= <- <-]).
    destruct (Sklearn.select test labels) as [Xt|e] eqn:Hselt.
    2:{ apply select_Raise in Hselt as ->. done. }
    simpl.
    destruct (select_lookup _ _ _ _ _ Hselc Hj) as (tcol' & HXc & Htcol').
    destruct (select_lookup _ _ _ _ _ Hselt Hj) as (col' & HXt & Hcol').
    assert (tcol' = tcol) as -> by congruence.
    assert (col' = col) as -> by congruence.
    unfold DataTransformation.cat_pipeline, Sklearn.Pipeline in Hcatfit |- *.
    cbn [Sklearn.fit_transform Sklearn.transform] in Hcatfit |- *.
    apply bind_Ok in Hcatfit as ([imp' X1] & Himp & Hcatfit).
    apply bind_Ok in Hcatfit as ([enc' X2] & Henc & Hcatfit).
    apply bind_Ok in Hcatfit as ([sc' X3] & _ & [= <- _]).
    cbn [Sklearn.most_frequent_imputer Sklearn.one_hot_encoder
           Sklearn.fit_transform Sklearn.transform] in Himp, Henc |- *.
    pose proof (imputer_encoder_unseen Xc Xt imp' X1 enc' X2 j label label tcol col v
                  Himp Henc HXc HXt Hpresent Hv Hna Hunseen) as Hraise.
    destruct (Sklearn.imputer_transform imp' Xt) as [X1t|e1]; simpl in Hraise |- *.
    - by rewrite Hraise.
    - by injection Hraise as ->. }
  exists e. split; [done|]. split; [done|].
  intros train_df test_df schema target Htrain Htest Hschema Htarget Hdrop_train Hdrop_test.
  destruct (drop_Ok_getitem _ _ _ Hdrop_train) as [y_train Hy_train].
  destruct (drop_Ok_getitem _ _ _ Hdrop_test) as [y_test Hy_test].
  unfold DataTransformation.initiate_data_tranformation, Util.io_try_except_HousingException.
  fold (train_path self) (test_path self) (schema_path self).
  rewrite Hget, io_bind_pure_Ok, Htrain, io_bind_pure_Ok, Htest, io_bind_pure_Ok.
  rewrite Hschema, io_bind_pure_Ok, Htarget. cbn [Util.schema_getitem].
  rewrite io_bind_pure_Ok, Hdrop_train, io_bind_pure_Ok, Hy_train, io_bind_pure_Ok.
  rewrite Hdrop_test, io_bind_pure_Ok, Hy_test, io_bind_pure_Ok.
  rewrite Hfit, io_bind_pure_Ok, Hraise, io_bind_pure_Raise. reflexivity.
Qed.

End Unseen.

(** The claim C4 as stated fails: on the sample, with "ISLAND" in the test
    table only, the fitted transformer raises on the test inputs and the run
    ends in the domain error, nothing written. *)
Lemma unseen_category_raises_on_sample :
  ∃ obj obj' A_train,
    DataTransformation.get_data_transformer_object sample_library sample_world
      sample_transformation = Ok obj ∧
    Sklearn.fit_transform (DataTransformation.preprocessing sample_library) obj
      sample_train_inputs = Ok (obj', A_train) ∧
    Sklearn.transform (DataTransformation.preprocessing sample_library) obj'
      sample_test_unseen_inputs = Raise ValueError ∧
    DataTransformation.initiate_data_tranformation sample_library
      (sample_world_with sample_test_unseen) sample_transformation
      = (Raise (HousingException ValueError), []).
Proof. do 3 eexists. split_and!; by vm_compute. Qed.

Lemma unseen_category_raises_witness :
  ∃ obj' e,
    Sklearn.transform (DataTransformation.preprocessing sample_library) obj'
      sample_test_unseen_inputs = Raise e ∧
    (e = ValueError ∨
     ∃ fitted,
       Sklearn.transformers_ obj' = Some fitted ∧
       Sklearn.transform_one (DataTransformation.num_pipeline sample_library) fitted.1
         sample_numerical_columns sample_test_unseen_inputs = Raise e) ∧
    DataTransformation.initiate_data_tranformation sample_library
      (sample_world_with sample_test_unseen) sample_transformation
      = (Raise (HousingException e), []).
Proof.
  destruct (Sklearn.fit_transform (DataTransformation.preprocessing sample_library)
              sample_preprocessing sample_train_inputs) as [[obj' A_train]|err] eqn:Hfit;
    [|by vm_compute in Hfit].
  exists obj'.
  destruct (unseen_category_raises sample_library (sample_world_with sample_test_unseen)
              sample_transformation sample_preprocessing
              sample_train_inputs sample_test_unseen_inputs obj' A_train
              "ocean_proximity"
              (Pandas.Str <$> ["NEAR BAY"; "INLAND"; "NEAR BAY"])
              (Pandas.Str <$> ["INLAND"; "ISLAND"])
              (Pandas.Str "ISLAND"))
    as (e & Hraise & Hcause & Hrun).
  - reflexivity.
  - exact Hfit.
  - vm_compute. elem_of_concrete.
  - reflexivity.
  - exists (Pandas.Str "NEAR BAY"). split; [elem_of_concrete|reflexivity].
  - reflexivity.
  - elem_of_concrete.
  - reflexivity.
  - intros c Hc.
    repeat (apply elem_of_cons in Hc as [->|Hc]; [reflexivity|]).
    by apply elem_of_nil in Hc.
  - exists e. split; [exact Hraise|]. split; [exact Hcause|].
    apply (Hrun sample_train sample_test_unseen sample_schema "median_house_value");
      reflexivity.
Defined.
(** * Further properties *)

(** ** The generator: failures, names, missing values *)

Lemma axis_index_cases n i :
  (∃ j, axis_index n i = Ok j) ∨ axis_index n i = Raise IndexError.
Proof.
  destruct (axis_index n i) as [j|e] eqn:Hi; [left; by exists j|right].
  by apply axis_index_Raise in Hi as [_ ->].
Qed.

Lemma axis_index_of_nat n j : j < n → axis_index n (Z.of_nat j) = Ok j.
Proof.
  intros Hj. unfold axis_index. rewrite decide_True by lia. by rewrite Nat2Z.id.
Qed.

(** X1. [transform] fails in one way only: it raises the domain error with
    an [IndexError] as cause, and it does so exactly when an index it uses is
    outside the matrix (the bedrooms index is used only with the flag).  The
    divisions and the concatenation never fail. *)
Theorem transform_fails_only_out_of_bounds (fg : FeatureGenerator.t) (X : ndarray float)
    (e : exn) :
  FeatureGenerator.transform fg X = Raise e →
  e = HousingException IndexError ∧
  ¬ ∃ tr pop hh tb, indices_in_range fg (ncols X) tr pop hh tb.
Proof.
  intros Hraise. split.
  - revert Hraise. unfold FeatureGenerator.transform, column.
    destruct (axis_index_cases (ncols X) (FeatureGenerator.total_rooms_ix fg))
      as [[tr ->]| ->]; simpl; [|by intros [= <-]].
    destruct (axis_index_cases (ncols X) (FeatureGenerator.households_ix fg))
      as [[hh ->]| ->]; simpl; [|by intros [= <-]].
    rewrite divide_fmap. simpl.
    destruct (axis_index_cases (ncols X) (FeatureGenerator.population_ix fg))
      as [[pop ->]| ->]; simpl; [|by intros [= <-]].
    rewrite divide_fmap. simpl.
    destruct (FeatureGenerator.add_bedrooms_per_room fg).
    + destruct (axis_index_cases (ncols X) (FeatureGenerator.total_bedrooms_ix fg))
        as [[tb ->]| ->]; simpl; [|by intros [= <-]].
      rewrite divide_fmap. simpl.
      unfold c_, nrows. simpl. by rewrite !length_fmap, !Nat.eqb_refl.
    + unfold c_, nrows. simpl. by rewrite !length_fmap, !Nat.eqb_refl.
  - intros (tr & pop & hh & tb & Hix).
    by rewrite (transform_closed_form fg X tr pop hh tb Hix) in Hraise.
Qed.

Lemma transform_fails_only_out_of_bounds_witness :
  HousingException IndexError = HousingException IndexError ∧
  ¬ ∃ tr pop hh tb, indices_in_range sample_generator (ncols sample_X_narrow) tr pop hh tb.
Proof.
  apply (transform_fails_only_out_of_bounds sample_generator sample_X_narrow
           (HousingException IndexError)).
  reflexivity.
Defined.

(** X2. A generator built from a list of column names fits every matrix
    that has a column for each name of the list: [transform] returns, and the
    ratios it appends are taken from the columns at the positions of
    [total_rooms], [population], [households] and [total_bedrooms] in the
    list. *)
Theorem named_generator_fits_named_matrix
    (flag : option bool) (a b c d : option Z) (names : list string)
    (fg : FeatureGenerator.t) (X : ndarray float) :
  FeatureGenerator.__init__ flag a b c d (Some names) = Ok fg →
  length names ≤ ncols X →
  rectangular X →
  ∃ Y tr pop hh tb,
    FeatureGenerator.transform fg X = Ok Y ∧
    names !! tr = Some Constant.COLUMN_TOTAL_ROOMS ∧
    names !! pop = Some Constant.COLUMN_POPULATION ∧
    names !! hh = Some Constant.COLUMN_HOUSEHOLDS ∧
    names !! tb = Some Constant.COLUMN_TOTAL_BEDROOM ∧
    ∀ i, i < nrows X →
         ratio_row (FeatureGenerator.add_bedrooms_per_room fg) X Y tr pop hh tb i.
Proof.
  unfold FeatureGenerator.__init__. rewrite try_except_Ok.
  intros Hinit Hlen Hrect.
  apply bind_Ok in Hinit as (tr & [Htr _]%list_index_Ok & Hinit).
  apply bind_Ok in Hinit as (pop & [Hpop _]%list_index_Ok & Hinit).
  apply bind_Ok in Hinit as (hh & [Hhh _]%list_index_Ok & Hinit).
  apply bind_Ok in Hinit as (tb & [Htb _]%list_index_Ok & [= <-]).
  assert (indices_in_range
            (FeatureGenerator.Build (Some names)
               (default FeatureGenerator.default_add_bedrooms_per_room flag)
               (Z.of_nat tr) (Z.of_nat pop) (Z.of_nat hh) (Z.of_nat tb))
            (ncols X) tr pop hh tb) as Hix.
  { unfold indices_in_range. simpl.
    apply lookup_lt_Some in Htr as ?, Hpop as ?, Hhh as ?, Htb as ?.
    rewrite !axis_index_of_nat by lia. done. }
  destruct (transform_ratio_rows _ X tr pop hh tb Hrect Hix) as (Y & HY & Hrows).
  exists Y, tr, pop, hh, tb. by split_and!.
Qed.

Lemma named_generator_fits_named_matrix_witness :
  ∃ Y tr pop hh tb,
    FeatureGenerator.transform
      (FeatureGenerator.Build (Some sample_numerical_columns) true 0 2 3 1)
      sample_numeric = Ok Y ∧
    sample_numerical_columns !! tr = Some Constant.COLUMN_TOTAL_ROOMS ∧
    sample_numerical_columns !! pop = Some Constant.COLUMN_POPULATION ∧
    sample_numerical_columns !! hh = Some Constant.COLUMN_HOUSEHOLDS ∧
    sample_numerical_columns !! tb = Some Constant.COLUMN_TOTAL_BEDROOM ∧
    ∀ i, i < nrows sample_numeric → ratio_row true sample_numeric Y tr pop hh tb i.
Proof.
  apply (named_generator_fits_named_matrix (Some true) None None None None
           sample_numerical_columns
           (FeatureGenerator.Build (Some sample_numerical_columns) true 0 2 3 1)
           sample_numeric).
  - reflexivity.
  - simpl. lia.
  - repeat constructor.
Defined.

Lemma is_nan_Prim2SF (y : float) : PrimFloat.is_nan y = true → Prim2SF y = S754_nan.
Proof.
  unfold PrimFloat.is_nan. rewrite FloatAxioms.eqb_spec.
  destruct (Prim2SF y) as [[]|[]| |[] m e]; cbn; try done;
    rewrite Z.compare_refl, <- ?Pos.compare_cont_spec, ?Pos.compare_refl; cbn;
    try done; by rewrite Pos.compare_cont_refl.
Qed.

Lemma div_nan (x y : float) :
  PrimFloat.is_nan x = true ∨ PrimFloat.is_nan y = true →
  PrimFloat.is_nan (PrimFloat.div x y) = true.
Proof.
  intros Hnan. unfold PrimFloat.is_nan at 1.
  rewrite FloatAxioms.eqb_spec, FloatAxioms.div_spec.
  destruct Hnan as [->%is_nan_Prim2SF| ->%is_nan_Prim2SF]; [done|].
  by destruct (Prim2SF x).
Qed.

(** X3. Missing values pass through [transform]: in a row whose households
    entry is NaN both ratios over households are NaN, and a NaN total-rooms
    or population entry makes its ratio NaN.  The call returns all the
    same. *)
Theorem transform_propagates_missing_values (fg : FeatureGenerator.t) (X : ndarray float)
    (tr pop hh tb : nat) :
  rectangular X →
  indices_in_range fg (ncols X) tr pop hh tb →
  ∃ Y, FeatureGenerator.transform fg X = Ok Y ∧
       (∀ i households,
          entry X i hh = Some households →
          PrimFloat.is_nan households = true →
          ∃ a b, entry Y i (ncols X) = Some a ∧ PrimFloat.is_nan a = true ∧
                 entry Y i (ncols X + 1) = Some b ∧ PrimFloat.is_nan b = true) ∧
       (∀ i total_rooms,
          entry X i tr = Some total_rooms →
          PrimFloat.is_nan total_rooms = true →
          ∃ a, entry Y i (ncols X) = Some a ∧ PrimFloat.is_nan a = true) ∧
       (∀ i population,
          entry X i pop = Some population →
          PrimFloat.is_nan population = true →
          ∃ b, entry Y i (ncols X + 1) = Some b ∧ PrimFloat.is_nan b = true).
Proof.
  intros Hrect Hix.
  destruct (transform_ratio_rows fg X tr pop hh tb Hrect Hix) as (Y & HY & Hrows).
  assert (∀ i j v, entry X i j = Some v → i < nrows X) as Hin.
  { intros i j v. unfold entry. destruct (rows X !! i) eqn:Hr; [|done].
    intros _. by eapply lookup_lt_Some. }
  exists Y. split; [done|]. split_and!.
  - intros i h Hh Hnan.
    destruct (Hrows i (Hin _ _ _ Hh)) as (r & p & h' & _ & _ & Hh' & Ha & Hb & _).
    rewrite Hh in Hh'. injection Hh' as <-.
    eexists _, _. split_and!; [exact Ha| |exact Hb|]; apply div_nan; by right.
  - intros i r Hr Hnan.
    destruct (Hrows i (Hin _ _ _ Hr)) as (r' & p & h & Hr' & _ & _ & Ha & _ & _).
    rewrite Hr in Hr'. injection Hr' as <-.
    eexists. split; [exact Ha|]. apply div_nan. by left.
  - intros i p Hp Hnan.
    destruct (Hrows i (Hin _ _ _ Hp)) as (r & p' & h & _ & Hp' & _ & _ & Hb & _).
    rewrite Hp in Hp'. injection Hp' as <-.
    eexists. split; [exact Hb|]. apply div_nan. by left.
Qed.

Lemma transform_propagates_missing_values_witness :
  ∃ Y, FeatureGenerator.transform sample_generator sample_X_missing = Ok Y ∧
       (∀ i households,
          entry sample_X_missing i 6 = Some households →
          PrimFloat.is_nan households = true →
          ∃ a b, entry Y i 7 = Some a ∧ PrimFloat.is_nan a = true ∧
                 entry Y i 8 = Some b ∧ PrimFloat.is_nan b = true) ∧
       (∀ i total_rooms,
          entry sample_X_missing i 3 = Some total_rooms →
          PrimFloat.is_nan total_rooms = true →
          ∃ a, entry Y i 7 = Some a ∧ PrimFloat.is_nan a = true) ∧
       (∀ i population,
          entry sample_X_missing i 5 = Some population →
          PrimFloat.is_nan population = true →
          ∃ b, entry Y i 8 = Some b ∧ PrimFloat.is_nan b = true).
Proof.
  apply (transform_propagates_missing_values sample_generator sample_X_missing 3 5 6 4).
  - repeat constructor.
  - repeat split; try intros _; reflexivity.
Defined.

(** ** The generator: columns kept, applied twice *)

Lemma transform_Ok_closed_form fg X Y :
  FeatureGenerator.transform fg X = Ok Y →
  ∃ tr pop hh tb,
    indices_in_range fg (ncols X) tr pop hh tb ∧
    Y = NdArray
          (ncols X + (if FeatureGenerator.add_bedrooms_per_room fg then 3 else 2))
          ((λ r, r ++ derived_features (FeatureGenerator.add_bedrooms_per_room fg) tr pop hh tb r)
             <$> rows X).
Proof.
  intros HY. destruct (transform_Ok_indices fg X Y HY) as (tr & pop & hh & tb & Hix).
  exists tr, pop, hh, tb. split; [done|].
  rewrite (transform_closed_form fg X tr pop hh tb Hix) in HY. by injection HY as <-.
Qed.

Lemma axis_index_nonneg_mono n m i j :
  (0 ≤ i)%Z → n ≤ m → axis_index n i = Ok j → axis_index m i = Ok j.
Proof.
  intros Hi Hnm. unfold axis_index. repeat case_decide; intros Hj; simplify_eq; try done; lia.
Qed.

Lemma derived_features_app flag tr pop hh tb (r s : list float) :
  tr < length r → pop < length r → hh < length r → (flag = true → tb < length r) →
  derived_features flag tr pop hh tb (r ++ s) = derived_features flag tr pop hh tb r.
Proof.
  intros Htr Hpop Hhh Htb. unfold derived_features.
  rewrite !(lookup_total_app_l r s) by done.
  destruct flag; [|done]. by rewrite (lookup_total_app_l r s) by auto.
Qed.

Lemma length_derived_features flag tr pop hh tb r :
  length (derived_features flag tr pop hh tb r) = if flag then 3 else 2.
Proof. unfold derived_features. by destruct flag. Qed.

(** X13. What [transform] returns starts with the matrix it was given:
    every entry of [X] is found at the same place of the result, the ratios
    coming after the last column of [X]. *)
Theorem transform_keeps_the_columns (fg : FeatureGenerator.t) (X Y : ndarray float) :
  rectangular X →
  FeatureGenerator.transform fg X = Ok Y →
  ∀ i j, j < ncols X → entry Y i j = entry X i j.
Proof.
  intros Hrect (tr & pop & hh & tb & _ & ->)%transform_Ok_closed_form i j Hj.
  destruct (rows X !! i) as [r|] eqn:Hr.
  - rewrite (entry_kept _ _ _ i r) ; [by unfold entry; rewrite Hr|done|].
    unfold rectangular in Hrect. rewrite Forall_lookup in Hrect.
    by rewrite (Hrect i r Hr).
  - unfold entry. simpl. by rewrite list_lookup_fmap, Hr.
Qed.

(** X14. [transform] is not idempotent.  With positions counted from the
    first column, the generator accepts its own output and appends the
    ratios once more: the columns added by the second call repeat those
    added by the first. *)
Theorem transform_twice_appends_again (fg : FeatureGenerator.t) (X Y : ndarray float) :
  rectangular X →
  (0 ≤ FeatureGenerator.total_rooms_ix fg)%Z →
  (0 ≤ FeatureGenerator.population_ix fg)%Z →
  (0 ≤ FeatureGenerator.households_ix fg)%Z →
  (0 ≤ FeatureGenerator.total_bedrooms_ix fg)%Z →
  FeatureGenerator.transform fg X = Ok Y →
  ∃ Z, FeatureGenerator.transform fg Y = Ok Z ∧
       ncols Z = ncols Y + (if FeatureGenerator.add_bedrooms_per_room fg then 3 else 2) ∧
       ∀ i d, i < nrows X →
              d < (if FeatureGenerator.add_bedrooms_per_room fg then 3 else 2) →
              entry Z i (ncols Y + d) = entry Y i (ncols X + d) ∧
              is_Some (entry Y i (ncols X + d)).
Proof.
  intros Hrect Htr0 Hpop0 Hhh0 Htb0
    (tr & pop & hh & tb & Hix & ->)%transform_Ok_closed_form.
  set (flag := FeatureGenerator.add_bedrooms_per_room fg) in *.
  set (k := if flag then 3 else 2).
  set (Y := NdArray (ncols X + k) _).
  assert (indices_in_range fg (ncols Y) tr pop hh tb) as HixY.
  { destruct Hix as (Htr & Hpop & Hhh & Htb). unfold indices_in_range.
    split_and!; [| | |intros Hflag; specialize (Htb Hflag)];
      (eapply axis_index_nonneg_mono; [done| |done]); simpl; lia. }
  eexists. split; [by apply transform_closed_form|]. split; [done|].
  intros i d Hi Hd. fold flag k.
  apply lookup_lt_is_Some_2 in Hi as [r Hr].
  assert (length r = ncols X) as Hlen.
  { unfold rectangular in Hrect. rewrite Forall_lookup in Hrect. eauto. }
  destruct Hix as (Htr & Hpop & Hhh & Htb).
  apply axis_index_lt in Htr, Hpop, Hhh.
  assert (flag = true → tb < ncols X) as Htb'.
  { intros Hflag. by apply axis_index_lt in Htb. }
  assert (entry Y i (ncols X + d) = derived_features flag tr pop hh tb r !! d) as HY.
  { apply (entry_appended _ _ _ i r); [done|]. by rewrite Hlen. }
  rewrite HY. split.
  - rewrite (entry_appended _ _ _ i (r ++ derived_features flag tr pop hh tb r)
               (ncols Y + d) d).
    + by rewrite derived_features_app by (rewrite Hlen; auto).
    + subst Y. simpl. by rewrite list_lookup_fmap, Hr.
    + subst Y k. simpl. by rewrite length_app, length_derived_features, Hlen.
  - apply lookup_lt_is_Some_2. by rewrite length_derived_features.
Qed.

Lemma transform_keeps_the_columns_witness :
  ∃ Y, FeatureGenerator.transform sample_generator sample_X = Ok Y ∧
       ∀ i j, j < ncols sample_X → entry Y i j = entry sample_X i j.
Proof.
  eexists. split; [by vm_compute|].
  apply (transform_keeps_the_columns sample_generator sample_X).
  - repeat constructor.
  - by vm_compute.
Defined.

Lemma transform_twice_appends_again_witness :
  ∃ Y Z, FeatureGenerator.transform sample_generator sample_X = Ok Y ∧
         FeatureGenerator.transform sample_generator Y = Ok Z ∧
         ncols Z = ncols Y + 3 ∧
         ∀ i d, i < nrows sample_X → d < 3 →
                entry Z i (ncols Y + d) = entry Y i (ncols sample_X + d) ∧
                is_Some (entry Y i (ncols sample_X + d)).
Proof.
  assert (rectangular sample_X) as Hrect by repeat constructor.
  destruct (FeatureGenerator.transform sample_generator sample_X) as [Y|e] eqn:HY;
    [|by vm_compute in HY].
  destruct (transform_twice_appends_again sample_generator sample_X Y Hrect)
    as (Z & HZ & Hrest); [done..|].
  exists Y, Z. split; [reflexivity|]. split; [exact HZ|exact Hrest].
Defined.
(** ** Names and places of the written files *)

Lemma has_sep_app (a b : string) :
  OsPath.has_sep (a +:+ b) = OsPath.has_sep a || OsPath.has_sep b.
Proof.
  induction a as [|c a IH]; [done|]. cbn [String.app OsPath.has_sep].
  change (String c a +:+ b) with (String c (a +:+ b)). cbn [OsPath.has_sep].
  by rewrite IH, orb_assoc.
Qed.

Lemma has_sep_basename (p : string) : OsPath.has_sep (OsPath.basename p) = false.
Proof.
  induction p as [|c rest IH]; [done|]. cbn [OsPath.basename].
  destruct (OsPath.has_sep rest) eqn:Hrest; [done|].
  destruct (Ascii.eqb c OsPath.sep) eqn:Hc; [done|].
  cbn [OsPath.has_sep]. by rewrite Hc, Hrest.
Qed.

Lemma basename_no_sep (b : string) : OsPath.has_sep b = false → OsPath.basename b = b.
Proof.
  destruct b as [|c rest]; [done|]. cbn [OsPath.has_sep OsPath.basename].
  intros [Hc Hrest]%orb_false_elim. by rewrite Hrest, Hc.
Qed.

Lemma basename_app_no_sep (a b : string) :
  OsPath.has_sep b = false →
  OsPath.basename (a +:+ b) = OsPath.basename a +:+ b.
Proof.
  intros Hb. induction a as [|c a IH]; [by apply basename_no_sep|].
  change (String c a +:+ b) with (String c (a +:+ b)). cbn [OsPath.basename].
  rewrite has_sep_app, Hb, orb_false_r.
  destruct (OsPath.has_sep a); [done|].
  by destruct (Ascii.eqb c OsPath.sep).
Qed.

Lemma endswith_sep_has_sep (a : string) :
  Str.endswith_char OsPath.sep a = true → OsPath.has_sep a = true.
Proof.
  induction a as [|c [|c' a] IH]; [done| |].
  - cbn. intros ->. done.
  - intros Hend. cbn [OsPath.has_sep] in *. rewrite (IH Hend). by rewrite orb_true_r.
Qed.

Lemma basename_endswith_sep (a : string) :
  Str.endswith_char OsPath.sep a = true → OsPath.basename a = EmptyString.
Proof.
  induction a as [|c [|c' a] IH]; [done| |].
  - cbn. by intros ->.
  - intros Hend. cbn [OsPath.basename].
    change (OsPath.has_sep (String c' a)) with (OsPath.has_sep (String c' a)).
    rewrite (endswith_sep_has_sep (String c' a) Hend). by apply IH.
Qed.

Lemma endswith_app_sep (a : string) : Str.endswith_char OsPath.sep (a +:+ "/") = true.
Proof.
  induction a as [|c a IH]; [done|].
  change (String c a +:+ "/") with (String c (a +:+ "/")).
  cbn [Str.endswith_char]. destruct (a +:+ "/") eqn:Ha; [by destruct a|done].
Qed.

Lemma has_sep_replace_from (old new : string) (skip : nat) (s : string) :
  OsPath.has_sep new = false → OsPath.has_sep s = false →
  OsPath.has_sep (Str.replace_from old new skip s) = false.
Proof.
  intros Hnew. revert skip. induction s as [|c rest IH]; intros skip; [done|].
  cbn [OsPath.has_sep]. intros [Hc Hrest]%orb_false_elim.
  cbn [Str.replace_from]. destruct skip as [|k]; [|by apply IH].
  destruct (Str.startswith old (String c rest)).
  - rewrite has_sep_app, Hnew. by apply IH.
  - cbn [OsPath.has_sep]. rewrite Hc. by apply IH.
Qed.

Lemma transformed_file_name_no_sep (path : string) :
  OsPath.has_sep (DataTransformation.transformed_file_name path) = false.
Proof.
  unfold DataTransformation.transformed_file_name, Str.replace.
  apply has_sep_replace_from; [done|apply has_sep_basename].
Qed.

(** X4. The file of a transformed array lies directly in the configured
    directory: the name derived from the source holds no separator, so
    [os.path.join] never drops the directory for it, and the base name of the
    joined path is the derived name again. *)
Theorem transformed_file_lies_in_directory (dir source_file_path : string) :
  let name := DataTransformation.transformed_file_name source_file_path in
  OsPath.has_sep name = false ∧
  (OsPath.join dir name = dir +:+ name ∨ OsPath.join dir name = dir +:+ "/" +:+ name) ∧
  OsPath.basename (OsPath.join dir name) = name.
Proof.
  intros name. pose proof (transformed_file_name_no_sep source_file_path) as Hname.
  fold name in Hname. split; [done|].
  assert (Str.startswith "/" name = false) as Hstart.
  { destruct name as [|c rest]; [done|]. cbn [OsPath.has_sep] in Hname.
    apply orb_false_elim in Hname as [Hc _]. unfold OsPath.sep in Hc.
    cbn [Str.startswith]. rewrite (Ascii.eqb_sym "/" c). by rewrite Hc. }
  unfold OsPath.join. rewrite Hstart.
  destruct (bool_decide (dir = EmptyString)) eqn:Hdir.
  - apply bool_decide_eq_true in Hdir as ->. cbn. split; [by left|].
    by apply basename_no_sep.
  - cbn [orb]. destruct (Str.endswith_char OsPath.sep dir) eqn:Hend.
    + split; [by left|]. rewrite basename_app_no_sep by done.
      by rewrite basename_endswith_sep.
    + split; [by right|].
      replace (dir +:+ "/" +:+ name) with ((dir +:+ "/") +:+ name).
      * rewrite basename_app_no_sep by done.
        by rewrite basename_endswith_sep by apply endswith_app_sep.
      * clear. induction dir as [|c dir IH]; [done|].
        change (String c dir +:+ "/") with (String c (dir +:+ "/")).
        change (String c (dir +:+ "/") +:+ name) with (String c ((dir +:+ "/") +:+ name)).
        change (String c dir +:+ "/" +:+ name) with (String c (dir +:+ "/" +:+ name)).
        by rewrite IH.
Qed.

Lemma replace_without_occurrence (old new s : string) :
  Str.contains old s = false → Str.replace old new s = s.
Proof.
  unfold Str.replace. induction s as [|c rest IH]; [done|].
  cbn [Str.contains]. intros [Hhead Hrest]%orb_false_elim.
  cbn [Str.replace_from]. rewrite Hhead. by rewrite IH.
Qed.

(** X5. A source whose base name does not contain [.csv] keeps its name:
    the array is then written under the name of the source itself, whatever
    its extension. *)
Theorem name_without_csv_is_kept (source_file_path : string) :
  Str.contains ".csv" (OsPath.basename source_file_path) = false →
  DataTransformation.transformed_file_name source_file_path
    = OsPath.basename source_file_path.
Proof. intros Hnone. by apply replace_without_occurrence. Qed.

Lemma name_without_csv_is_kept_witness :
  DataTransformation.transformed_file_name "artifact/ingested_data/train/housing.tsv"
    = OsPath.basename "artifact/ingested_data/train/housing.tsv".
Proof.
  apply (name_without_csv_is_kept "artifact/ingested_data/train/housing.tsv").
  reflexivity.
Defined.

(** ** Building and fitting the transformer object *)

Lemma list_index_cases x names :
  (∃ i, list_index x names = Ok i ∧ x ∈ names) ∨
  (list_index x names = Raise ValueError ∧ x ∉ names).
Proof.
  destruct (list_index x names) as [i|e] eqn:Hx.
  - left. exists i. split; [done|].
    apply list_index_Ok in Hx as [Hx _]. by eapply list_elem_of_lookup_2.
  - right. by apply list_index_Raise in Hx as [? ->].
Qed.

Lemma init_fails_on_missing_name flag a b c d names :
  (∃ name, name ∈ FeatureGenerator.required_columns ∧ name ∉ names) →
  FeatureGenerator.__init__ flag a b c d (Some names) = Raise (HousingException ValueError).
Proof.
  intros (name & Hreq & Hmissing). unfold FeatureGenerator.__init__.
  destruct (list_index_cases Constant.COLUMN_TOTAL_ROOMS names) as [(i1 & -> & H1)|[-> _]];
    [|done].
  destruct (list_index_cases Constant.COLUMN_POPULATION names) as [(i2 & -> & H2)|[-> _]];
    [|done].
  destruct (list_index_cases Constant.COLUMN_HOUSEHOLDS names) as [(i3 & -> & H3)|[-> _]];
    [|done].
  destruct (list_index_cases Constant.COLUMN_TOTAL_BEDROOM names) as [(i4 & -> & H4)|[-> _]];
    [|done].
  exfalso. unfold FeatureGenerator.required_columns in Hreq.
  repeat (apply elem_of_cons in Hreq as [->|Hreq]; [done|]).
  by apply elem_of_nil in Hreq.
Qed.

Lemma init_returns_iff flag a b c d names :
  (∃ fg, FeatureGenerator.__init__ flag a b c d (Some names) = Ok fg) ↔
  ∀ name, name ∈ FeatureGenerator.required_columns → name ∈ names.
Proof.
  split.
  - intros [fg Hfg] name Hreq.
    destruct (decide (name ∈ names)) as [|Hmissing]; [done|].
    rewrite (init_fails_on_missing_name flag a b c d names) in Hfg; [done|].
    by exists name.
  - intros Hall. unfold FeatureGenerator.__init__.
    destruct (list_index_total Constant.COLUMN_TOTAL_ROOMS names) as [i1 ->];
      [apply Hall; elem_of_concrete|].
    destruct (list_index_total Constant.COLUMN_POPULATION names) as [i2 ->];
      [apply Hall; elem_of_concrete|].
    destruct (list_index_total Constant.COLUMN_HOUSEHOLDS names) as [i3 ->];
      [apply Hall; elem_of_concrete|].
    destruct (list_index_total Constant.COLUMN_TOTAL_BEDROOM names) as [i4 ->];
      [apply Hall; elem_of_concrete|].
    by eexists.
Qed.

Lemma init_Ok_fields flag a b c d names fg :
  FeatureGenerator.__init__ flag a b c d (Some names) = Ok fg →
  FeatureGenerator.columns fg = Some names ∧
  FeatureGenerator.add_bedrooms_per_room fg =
    default FeatureGenerator.default_add_bedrooms_per_room flag.
Proof.
  unfold FeatureGenerator.__init__. rewrite try_except_Ok.
  intros (i1 & _ & H)%bind_Ok. apply bind_Ok in H as (i2 & _ & H).
  apply bind_Ok in H as (i3 & _ & H). apply bind_Ok in H as (i4 & _ & [= <-]). done.
Qed.

Section Object.
Context (lib : Sklearn.Library).
Implicit Types world : Util.World (DataTransformation.preprocessing_t lib).
Implicit Types self : DataTransformation.t.

(** What a returned object was built from. *)
Lemma get_object_Ok_schema world self obj :
  DataTransformation.get_data_transformer_object lib world self = Ok obj →
  ∃ schema ncs ccs fg,
    Util.read_yaml_file world (schema_path self) = Ok schema ∧
    Util.numerical_columns schema = Some ncs ∧
    Util.categorical_columns schema = Some ccs ∧
    FeatureGenerator.__init__ (Some true) None None None None (Some ncs) = Ok fg ∧
    obj = Sklearn.Columns
            ((Sklearn.SimpleImputer_median lib, fg, Sklearn.StandardScaler_init lib true, ncs),
             (Sklearn.MostFrequent None, Sklearn.OneHotEncoder_init None,
              Sklearn.StandardScaler_init lib false, ccs))
            None.
Proof.
  unfold DataTransformation.get_data_transformer_object. rewrite try_except_Ok.
  fold (schema_path self).
  intros (schema & Hschema & Hobj)%bind_Ok.
  apply bind_Ok in Hobj as (ncs & Hncs & Hobj).
  apply bind_Ok in Hobj as (ccs & Hccs & Hobj).
  apply bind_Ok in Hobj as (fg & Hfg & [= <-]).
  exists schema, ncs, ccs, fg.
  destruct (Util.numerical_columns schema) as [ncs'|]; [|done].
  destruct (Util.categorical_columns schema) as [ccs'|]; [|done].
  simpl in Hncs, Hccs. by simplify_eq.
Qed.

(** X6. [get_data_transformer_object] returns exactly when the schema file
    can be read, holds both the numerical and the categorical column list,
    and the numerical list names the four columns the feature generator
    looks up.  The object it returns is not fitted; its numeric and one-hot
    columns are the two lists of the schema, its feature generator adds the
    bedrooms ratio and keeps the numerical list as its columns, and its
    encoder raises on unknown categories. *)
Theorem get_data_transformer_object_returns_iff world self :
  ((∃ obj, DataTransformation.get_data_transformer_object lib world self = Ok obj) ↔
   ∃ schema ncs ccs,
     Util.read_yaml_file world (schema_path self) = Ok schema ∧
     Util.numerical_columns schema = Some ncs ∧
     Util.categorical_columns schema = Some ccs ∧
     ∀ name, name ∈ FeatureGenerator.required_columns → name ∈ ncs) ∧
  ∀ obj, DataTransformation.get_data_transformer_object lib world self = Ok obj →
    Sklearn.transformers_ obj = None ∧
    FeatureGenerator.add_bedrooms_per_room (generator_of obj) = true ∧
    FeatureGenerator.columns (generator_of obj) = Some (numeric_columns obj) ∧
    Sklearn.handle_unknown (Sklearn.transformers obj).2.1.1.2 = Sklearn.handle_unknown_error ∧
    ∃ schema,
      Util.read_yaml_file world (schema_path self) = Ok schema ∧
      Util.numerical_columns schema = Some (numeric_columns obj) ∧
      Util.categorical_columns schema = Some (one_hot_columns obj).
Proof.
  split; [split|].
  - intros [obj Hobj].
    apply get_object_Ok_schema in Hobj as (schema & ncs & ccs & fg & ? & ? & ? & Hfg & _).
    exists schema, ncs, ccs. split_and!; [done..|].
    apply (init_returns_iff (Some true) None None None None). by exists fg.
  - intros (schema & ncs & ccs & Hschema & Hncs & Hccs & Hall).
    apply (init_returns_iff (Some true) None None None None) in Hall as [fg Hfg].
    unfold DataTransformation.get_data_transformer_object. fold (schema_path self).
    rewrite Hschema. simpl. rewrite Hncs, Hccs. simpl. rewrite Hfg. simpl. by eexists.
  - intros obj Hobj.
    apply get_object_Ok_schema in Hobj as (schema & ncs & ccs & fg & ? & ? & ? & Hfg & ->).
    apply init_Ok_fields in Hfg as [Hcols Hflag].
    split_and!; [done..|]. by exists schema.
Qed.

(** X7. A schema whose numerical list lacks one of the four names makes
    [get_data_transformer_object] raise a [HousingException] whose cause is
    the [HousingException] of the feature generator, itself caused by the
    [ValueError] of the lookup; the run wraps that once more and writes
    nothing. *)
Theorem missing_required_column_is_wrapped_thrice world self schema ncs ccs name :
  Util.read_yaml_file world (schema_path self) = Ok schema →
  Util.numerical_columns schema = Some ncs →
  Util.categorical_columns schema = Some ccs →
  name ∈ FeatureGenerator.required_columns →
  name ∉ ncs →
  DataTransformation.get_data_transformer_object lib world self
    = Raise (HousingException (HousingException ValueError)) ∧
  DataTransformation.initiate_data_tranformation lib world self
    = (Raise (HousingException (HousingException (HousingException ValueError))), []).
Proof.
  intros Hschema Hncs Hccs Hreq Hmissing.
  assert (DataTransformation.get_data_transformer_object lib world self
          = Raise (HousingException (HousingException ValueError))) as Hget.
  { unfold DataTransformation.get_data_transformer_object. fold (schema_path self).
    rewrite Hschema. simpl. rewrite Hncs, Hccs. simpl.
    rewrite (init_fails_on_missing_name (Some true) None None None None ncs); [done|].
    by exists name. }
  split; [done|].
  unfold DataTransformation.initiate_data_tranformation, Util.io_try_except_HousingException.
  rewrite Hget, io_bind_pure_Raise. reflexivity.
Qed.

End Object.

Lemma missing_required_column_is_wrapped_thrice_witness :
  DataTransformation.get_data_transformer_object sample_library sample_world_incomplete
    sample_transformation
    = Raise (HousingException (HousingException ValueError)) ∧
  DataTransformation.initiate_data_tranformation sample_library sample_world_incomplete
    sample_transformation
    = (Raise (HousingException (HousingException (HousingException ValueError))), []).
Proof.
  apply (missing_required_column_is_wrapped_thrice sample_library sample_world_incomplete
           sample_transformation sample_schema_incomplete
           ["total_rooms"; "population"; "households"; "median_income"]
           ["ocean_proximity"] "total_bedrooms").
  - reflexivity.
  - reflexivity.
  - reflexivity.
  - unfold FeatureGenerator.required_columns. elem_of_concrete.
  - intros Hin. repeat (apply elem_of_cons in Hin as [[=]|Hin]). by apply elem_of_nil in Hin.
Defined.
(** ** The column transformer on a table *)

Lemma getitem_insert_other (df1 df2 : list (string * list Pandas.cell)) l c x :
  l ≠ x →
  Pandas.getitem (df1 ++ (l, c) :: df2) x = Pandas.getitem (df1 ++ df2) x.
Proof.
  intros Hl. induction df1 as [|[l' c'] df1 IH]; simpl.
  - by rewrite decide_False.
  - by rewrite IH.
Qed.

Lemma mapM_ext_in {A B} (f g : A → result B) (l : list A) :
  (∀ x, x ∈ l → f x = g x) → mapM f l = mapM g l.
Proof.
  induction l as [|a l IH]; intros Hfg; [done|]. simpl.
  rewrite (Hfg a) by left. rewrite IH; [done|]. intros x Hx. apply Hfg. by right.
Qed.

Lemma select_insert_other (df1 df2 : list (string * list Pandas.cell)) l c labels :
  l ∉ labels →
  Sklearn.select (df1 ++ (l, c) :: df2) labels = Sklearn.select (df1 ++ df2) labels.
Proof.
  intros Hl. unfold Sklearn.select. apply mapM_ext_in. intros x Hx.
  rewrite getitem_insert_other; [done|]. by intros ->.
Qed.

Lemma getitem_dropped (df : list (string * list Pandas.cell)) label :
  Pandas.getitem (filter (λ lc, lc.1 ≠ label) df) label = Raise KeyError.
Proof.
  induction df as [|[l c] df IH]; [done|].
  destruct (decide (l = label)) as [->|Hl].
  - by rewrite filter_cons_False by (simpl; auto).
  - rewrite filter_cons_True by done. simpl. by rewrite decide_False.
Qed.

Lemma select_missing_label df labels l e :
  l ∈ labels → Pandas.getitem df l = Raise e → Sklearn.select df labels = Raise ValueError.
Proof.
  intros Hl Hget. unfold Sklearn.select.
  eapply (mapM_Raise _ _ ValueError l); [|done|].
  - intros a e'. destruct (Pandas.getitem df a); [done|]. by intros [= <-].
  - by rewrite Hget.
Qed.

Section Fit.
Context (lib : Sklearn.Library).
Implicit Types obj : DataTransformation.preprocessing_t lib.

(** A label of the transformer that the table lacks stops both operations
    at the selection of the columns. *)
Lemma fit_transform_missing_label obj (df : list (string * list Pandas.cell)) l e :
  l ∈ numeric_columns obj ++ one_hot_columns obj →
  Pandas.getitem df l = Raise e →
  ∃ e', Sklearn.fit_transform (DataTransformation.preprocessing lib) obj df = Raise e'.
Proof.
  intros Hl Hget. destruct obj as [[[t1 l1] [t2 l2]] s].
  unfold numeric_columns, one_hot_columns in Hl. cbn in Hl.
  unfold DataTransformation.preprocessing, Sklearn.ColumnTransformer_estimator.
  cbn [Sklearn.fit_transform Sklearn.transformers].
  destruct (Sklearn.fit_transform_one (DataTransformation.num_pipeline lib) t1 l1 df)
    as [[t1' Y1]|e1] eqn:H1; [|by eexists].
  cbn.
  assert (l ∈ l2) as Hl2.
  { apply elem_of_app in Hl as [Hl1|Hl2]; [|done]. exfalso.
    unfold Sklearn.fit_transform_one in H1.
    destruct l1 as [|l0 l1]; [by apply elem_of_nil in Hl1|].
    by rewrite (select_missing_label df (l0 :: l1) l e) in H1. }
  unfold Sklearn.fit_transform_one.
  destruct l2 as [|l0 l2]; [by apply elem_of_nil in Hl2|].
  rewrite (select_missing_label df (l0 :: l2) l e) by done. by eexists.
Qed.

(** X8. Fitting the column transformer keeps its configuration and the
    settings of the feature generator: the generator of the fitted numeric
    pipeline has the flag, the positions and the columns of the one the
    transformer was built with ([fit] of the generator learns nothing), and
    the fitted encoder keeps the policy for unknown categories. *)
Theorem fitting_keeps_the_generator obj obj' (X : Pandas.DataFrame) (A : ndarray float) :
  Sklearn.fit_transform (DataTransformation.preprocessing lib) obj X = Ok (obj', A) →
  Sklearn.transformers obj' = Sklearn.transformers obj ∧
  ∃ fitted,
    Sklearn.transformers_ obj' = Some fitted ∧
    fitted.1.1.2 = generator_of obj ∧
    Sklearn.handle_unknown fitted.2.1.2
      = Sklearn.handle_unknown (Sklearn.transformers obj).2.1.1.2.
Proof.
  destruct obj as [[[[[imp fg] sc] l1] [[[imp2 enc] sc2] l2]] s].
  unfold DataTransformation.preprocessing, Sklearn.ColumnTransformer_estimator, generator_of.
  cbn [Sklearn.fit_transform Sklearn.transformers fst snd].
  intros H. apply bind_Ok in H as ([t1' Y1] & H1 & H).
  apply bind_Ok in H as ([t2' Y2] & H2 & H).
  apply bind_Ok in H as (Y & _ & [= <- <-]).
  split; [done|]. exists (t1', t2'). split; [done|]. cbn [fst snd Sklearn.transformers_].
  split.
  - unfold Sklearn.fit_transform_one in H1. destruct l1 as [|l0 l1]; [by injection H1 as <- <-|].
    apply bind_Ok in H1 as (X1 & _ & H1).
    apply bind_Ok in H1 as ([t1'' Y1'] & H1 & [= <- <-]).
    unfold DataTransformation.num_pipeline, Sklearn.Pipeline in H1.
    cbn [Sklearn.fit_transform] in H1.
    apply bind_Ok in H1 as ([imp' Z1] & _ & H1).
    apply bind_Ok in H1 as ([fg' Z2] & Hfg & H1).
    apply bind_Ok in H1 as ([sc' Z3] & _ & [= <- <-]).
    unfold DataTransformation.feature_generator in Hfg. cbn [Sklearn.fit_transform] in Hfg.
    apply bind_Ok in Hfg as (Z & _ & [= <- <-]). done.
  - unfold Sklearn.fit_transform_one in H2. destruct l2 as [|l0 l2]; [by injection H2 as <- <-|].
    apply bind_Ok in H2 as (X2 & _ & H2).
    apply bind_Ok in H2 as ([t2'' Y2'] & H2 & [= <- <-]).
    unfold DataTransformation.cat_pipeline, Sklearn.Pipeline in H2.
    cbn [Sklearn.fit_transform] in H2.
    apply bind_Ok in H2 as ([imp' Z1] & _ & H2).
    apply bind_Ok in H2 as ([enc' Z2] & Henc & H2).
    apply bind_Ok in H2 as ([sc' Z3] & _ & [= <- <-]).
    unfold Sklearn.one_hot_encoder, Sklearn.encoder_fit_transform in Henc.
    cbn [Sklearn.fit_transform] in Henc.
    apply bind_Ok in Henc as (cats & _ & Henc).
    apply bind_Ok in Henc as (Z & _ & [= <- <-]). done.
Qed.

(** X9. A column of the table that the transformer does not list is
    ignored: inserting such a column anywhere in a table, the number of rows
    staying the same, changes neither what [fit_transform] returns nor what
    [transform] returns. *)
Theorem unlisted_column_is_ignored obj (df1 df2 : Pandas.DataFrame) (l : string)
    (c : list Pandas.cell) :
  l ∉ numeric_columns obj ++ one_hot_columns obj →
  Pandas.nrows (df1 ++ (l, c) :: df2) = Pandas.nrows (df1 ++ df2) →
  Sklearn.fit_transform (DataTransformation.preprocessing lib) obj (df1 ++ (l, c) :: df2)
    = Sklearn.fit_transform (DataTransformation.preprocessing lib) obj (df1 ++ df2) ∧
  Sklearn.transform (DataTransformation.preprocessing lib) obj (df1 ++ (l, c) :: df2)
    = Sklearn.transform (DataTransformation.preprocessing lib) obj (df1 ++ df2).
Proof.
  intros Hl Hrows. destruct obj as [[[t1 l1] [t2 l2]] s].
  unfold numeric_columns, one_hot_columns in Hl. cbn in Hl.
  apply not_elem_of_app in Hl as [Hl1 Hl2].
  assert (∀ T (e : Sklearn.estimator T Pandas.DataFrame (ndarray float)) t labels,
            l ∉ labels →
            Sklearn.fit_transform_one e t labels (df1 ++ (l, c) :: df2)
            = Sklearn.fit_transform_one e t labels (df1 ++ df2)) as Hfit.
  { intros T e t labels Hlabels. unfold Sklearn.fit_transform_one.
    destruct labels; [done|]. by rewrite select_insert_other. }
  assert (∀ T (e : Sklearn.estimator T Pandas.DataFrame (ndarray float)) t labels,
            l ∉ labels →
            Sklearn.transform_one e t labels (df1 ++ (l, c) :: df2)
            = Sklearn.transform_one e t labels (df1 ++ df2)) as Htransform.
  { intros T e t labels Hlabels. unfold Sklearn.transform_one.
    destruct labels; [done|]. by rewrite select_insert_other. }
  unfold DataTransformation.preprocessing, Sklearn.ColumnTransformer_estimator.
  cbn [Sklearn.fit_transform Sklearn.transform Sklearn.transformers Sklearn.transformers_].
  split.
  - by rewrite !Hfit, Hrows.
  - destruct s as [[t1' t2']|]; [|done]. by rewrite !Htransform, Hrows.
Qed.

End Fit.

Lemma unlisted_column_is_ignored_witness :
  Sklearn.fit_transform (DataTransformation.preprocessing sample_library) sample_preprocessing
      (sample_inputs_head ++ ("longitude", sample_longitude) :: sample_inputs_tail)
    = Sklearn.fit_transform (DataTransformation.preprocessing sample_library)
        sample_preprocessing (sample_inputs_head ++ sample_inputs_tail) ∧
  Sklearn.transform (DataTransformation.preprocessing sample_library) sample_preprocessing
      (sample_inputs_head ++ ("longitude", sample_longitude) :: sample_inputs_tail)
    = Sklearn.transform (DataTransformation.preprocessing sample_library)
        sample_preprocessing (sample_inputs_head ++ sample_inputs_tail).
Proof.
  apply (unlisted_column_is_ignored sample_library sample_preprocessing
           sample_inputs_head sample_inputs_tail "longitude" sample_longitude).
  - intros Hin. repeat (apply elem_of_cons in Hin as [[=]|Hin]). by apply elem_of_nil in Hin.
  - reflexivity.
Defined.

Lemma fitting_keeps_the_generator_witness :
  ∃ obj' A,
    Sklearn.fit_transform (DataTransformation.preprocessing sample_library)
      sample_preprocessing sample_train_inputs = Ok (obj', A) ∧
    Sklearn.transformers obj' = Sklearn.transformers sample_preprocessing ∧
    ∃ fitted,
      Sklearn.transformers_ obj' = Some fitted ∧
      fitted.1.1.2 = generator_of sample_preprocessing ∧
      Sklearn.handle_unknown fitted.2.1.2
        = Sklearn.handle_unknown (Sklearn.transformers sample_preprocessing).2.1.1.2.
Proof.
  do 2 eexists. split; [by vm_compute|].
  eapply (fitting_keeps_the_generator sample_library sample_preprocessing _
            sample_train_inputs).
  by vm_compute.
Defined.
(** ** What a run writes *)

Lemma c__one_column {A} (X : ndarray A) (y : list A) (arr : ndarray A) :
  c_ X [y] = Ok arr ↔
  length y = nrows X ∧ arr = NdArray (ncols X + 1) (append_column (rows X) y).
Proof.
  unfold c_. simpl. rewrite andb_true_r.
  destruct (Nat.eqb_spec (length y) (nrows X)) as [Hy|Hy].
  - split; [by intros [= <-]|by intros [_ ->]].
  - split; [intros [=]|by intros [? _]].
Qed.

Lemma c__as_cells_target (A : ndarray float) (y : list Pandas.cell)
    (arr : ndarray Pandas.cell) :
  c_ (Pandas.as_cells A) [y] = Ok arr → target_appended A y arr.
Proof.
  intros [Hy ->]%c__one_column. unfold target_appended, Pandas.as_cells, nrows in *.
  simpl in *. rewrite length_fmap in Hy. split_and!; [done| |done|].
  - unfold append_column. rewrite length_zip_with, length_fmap. lia.
  - intros i r v Hr Hv. unfold append_column.
    rewrite lookup_zip_with, list_lookup_fmap, Hr. simpl. by rewrite Hv.
Qed.

Section RunsExtra.
Context (lib : Sklearn.Library).
Implicit Types world : Util.World (DataTransformation.preprocessing_t lib).
Implicit Types self : DataTransformation.t.

(** X10. A run that raises never writes the fitted object, and what it has
    written tells where it stopped: nothing, when a step before the first
    write raised or that write itself; the training array alone, when
    writing the test array raised; both arrays, when writing the object
    raised.  In the last two cases the cause of the [HousingException] is
    the exception of the failed write. *)
Theorem failed_run_never_writes_the_object world self e :
  (DataTransformation.initiate_data_tranformation lib world self).1 = Raise e →
  object_written (DataTransformation.initiate_data_tranformation lib world self).2 = None ∧
  ((DataTransformation.initiate_data_tranformation lib world self).2 = [] ∨
   (∃ train_arr test_arr cause,
      (DataTransformation.initiate_data_tranformation lib world self).2
        = [Util.SavedArray (file_path_train self) train_arr] ∧
      Util.save_numpy_array_data world (file_path_test self) test_arr = Raise cause ∧
      e = HousingException cause) ∨
   (∃ train_arr test_arr obj' cause,
      (DataTransformation.initiate_data_tranformation lib world self).2
        = [Util.SavedArray (file_path_train self) train_arr;
           Util.SavedArray (file_path_test self) test_arr] ∧
      Util.save_object world (object_path self) obj' = Raise cause ∧
      e = HousingException cause)).
Proof.
  unfold DataTransformation.initiate_data_tranformation, Util.io_try_except_HousingException.
  cbn [fst snd].
  fold (train_path self) (test_path self) (schema_path self).
  fold (file_path_train self) (file_path_test self) (object_path self).
  io_step obj H1; [|by intros; split; [|left]].
  io_step train_df H2; [|by intros; split; [|left]].
  io_step test_df H3; [|by intros; split; [|left]].
  io_step schema H4; [|by intros; split; [|left]].
  io_step target H5; [|by intros; split; [|left]].
  io_step X_train H6; [|by intros; split; [|left]].
  io_step y_train H7; [|by intros; split; [|left]].
  io_step X_test H8; [|by intros; split; [|left]].
  io_step y_test H9; [|by intros; split; [|left]].
  io_step fitted H10; [|by intros; split; [|left]]. destruct fitted as [obj' A_train].
  io_step A_test H11; [|by intros; split; [|left]].
  io_step train_arr H12; [|by intros; split; [|left]].
  io_step test_arr H13; [|by intros; split; [|left]].
  io_step u1 H14; [|by intros; split; [|left]].
  io_step u2 H15.
  2:{ cbn [fst snd app]. intros [= <-]. split; [done|]. right. left.
      by exists train_arr, test_arr, e0. }
  io_step u3 H16.
  2:{ cbn [fst snd app]. intros [= <-]. split; [done|]. right. right.
      by exists train_arr, test_arr, obj', e0. }
  cbn [fst snd Util.pure]. intros [=].
Qed.

(** X11. In a run that returns, each written array is the array of the
    transformed features with the target column of its table as one more
    column on the right: one column more than the features, the same rows,
    the target having one value per row.  The fitted object is written
    third. *)
Theorem written_arrays_hold_features_and_target world self art :
  (DataTransformation.initiate_data_tranformation lib world self).1 = Ok art →
  ∃ obj' A_train A_test y_train y_test train_arr test_arr,
    fitted_on_train_applied_to_test lib world self obj' A_train A_test ∧
    target_of world self (train_path self) y_train ∧
    target_of world self (test_path self) y_test ∧
    target_appended A_train y_train train_arr ∧
    target_appended A_test y_test test_arr ∧
    (DataTransformation.initiate_data_tranformation lib world self).2
      = [Util.SavedArray (file_path_train self) train_arr;
         Util.SavedArray (file_path_test self) test_arr;
         Util.SavedObject (object_path self) obj'].
Proof.
  intros Hrun. apply initiate_Ok_inv in Hrun
    as (obj & train_df & test_df & schema & target & X_train & y_train & X_test & y_test
        & obj' & A_train & A_test & train_arr & test_arr
        & Hobj & Htrain & Htest & Hschema & Htarget & HXtrain & Hytrain & HXtest & Hytest
        & Hfit & Htransform & Harr_train & Harr_test & _ & _ & _ & Hlog & _).
  exists obj', A_train, A_test, y_train, y_test, train_arr, test_arr.
  assert (Util.target_column schema = Some target) as Htarget'.
  { destruct (Util.target_column schema); [|done]. by injection Htarget as ->. }
  split_and!.
  - by exists obj, train_df, test_df, schema, target, X_train, X_test.
  - by exists train_df, schema, target.
  - by exists test_df, schema, target.
  - by apply c__as_cells_target.
  - by apply c__as_cells_target.
  - done.
Qed.

(** X12. A schema that lists its target column among the numerical or the
    categorical columns makes every run fail: the target is dropped from
    the input features before the transformer selects its columns.  The run
    ends in a [HousingException] and writes nothing. *)
Theorem target_listed_as_feature_fails world self schema ncs ccs target :
  Util.read_yaml_file world (schema_path self) = Ok schema →
  Util.numerical_columns schema = Some ncs →
  Util.categorical_columns schema = Some ccs →
  Util.target_column schema = Some target →
  target ∈ ncs ++ ccs →
  ∃ cause,
    DataTransformation.initiate_data_tranformation lib world self
      = (Raise (HousingException cause), []).
Proof.
  intros Hschema Hncs Hccs Htarget Hlisted.
  unfold DataTransformation.initiate_data_tranformation, Util.io_try_except_HousingException.
  fold (train_path self) (test_path self) (schema_path self).
  io_step obj H1; [|by eexists].
  io_step train_df H2; [|by eexists].
  io_step test_df H3; [|by eexists].
  rewrite Hschema, io_bind_pure_Ok, Htarget. cbn [Util.schema_getitem].
  rewrite io_bind_pure_Ok.
  io_step X_train H6; [|by eexists].
  io_step y_train H7; [|by eexists].
  io_step X_test H8; [|by eexists].
  io_step y_test H9; [|by eexists].
  apply get_object_Ok_schema in H1
    as (schema' & ncs' & ccs' & fg & Hschema' & Hncs' & Hccs' & _ & ->).
  rewrite Hschema in Hschema'. injection Hschema' as <-.
  rewrite Hncs in Hncs'. injection Hncs' as <-.
  rewrite Hccs in Hccs'. injection Hccs' as <-.
  unfold Pandas.drop in H6. destruct (Pandas.has_column train_df target); [|done].
  injection H6 as <-.
  match goal with
  | |- context [Sklearn.fit_transform ?e ?o ?X] =>
      destruct (fit_transform_missing_label lib o X target KeyError) as [e' ->];
        [done|apply getitem_dropped|]
  end.
  rewrite io_bind_pure_Raise. by eexists.
Qed.

End RunsExtra.

Lemma failed_run_never_writes_the_object_witness :
  object_written
    (DataTransformation.initiate_data_tranformation sample_library
       sample_world_test_dir_readonly sample_transformation).2 = None ∧
  ((DataTransformation.initiate_data_tranformation sample_library
      sample_world_test_dir_readonly sample_transformation).2 = [] ∨
   (∃ train_arr test_arr cause,
      (DataTransformation.initiate_data_tranformation sample_library
         sample_world_test_dir_readonly sample_transformation).2
        = [Util.SavedArray (file_path_train sample_transformation) train_arr] ∧
      Util.save_numpy_array_data sample_world_test_dir_readonly
        (file_path_test sample_transformation) test_arr = Raise cause ∧
      HousingException (Exc "PermissionError") = HousingException cause) ∨
   (∃ train_arr test_arr obj' cause,
      (DataTransformation.initiate_data_tranformation sample_library
         sample_world_test_dir_readonly sample_transformation).2
        = [Util.SavedArray (file_path_train sample_transformation) train_arr;
           Util.SavedArray (file_path_test sample_transformation) test_arr] ∧
      Util.save_object sample_world_test_dir_readonly
        (object_path sample_transformation) obj' = Raise cause ∧
      HousingException (Exc "PermissionError") = HousingException cause)).
Proof.
  apply (failed_run_never_writes_the_object sample_library sample_world_test_dir_readonly
           sample_transformation (HousingException (Exc "PermissionError"))).
  by vm_compute.
Defined.

Lemma written_arrays_hold_features_and_target_witness :
  ∃ obj' A_train A_test y_train y_test train_arr test_arr,
    fitted_on_train_applied_to_test sample_library sample_world sample_transformation
      obj' A_train A_test ∧
    target_of sample_world sample_transformation (train_path sample_transformation) y_train ∧
    target_of sample_world sample_transformation (test_path sample_transformation) y_test ∧
    target_appended A_train y_train train_arr ∧
    target_appended A_test y_test test_arr ∧
    (DataTransformation.initiate_data_tranformation sample_library sample_world
       sample_transformation).2
      = [Util.SavedArray (file_path_train sample_transformation) train_arr;
         Util.SavedArray (file_path_test sample_transformation) test_arr;
         Util.SavedObject (object_path sample_transformation) obj'].
Proof.
  apply (written_arrays_hold_features_and_target sample_library sample_world
           sample_transformation sample_artifact).
  by vm_compute.
Defined.

Lemma target_listed_as_feature_fails_witness :
  ∃ cause,
    DataTransformation.initiate_data_tranformation sample_library sample_world_target_listed
      sample_transformation
      = (Raise (HousingException cause), []).
Proof.
  apply (target_listed_as_feature_fails sample_library sample_world_target_listed
           sample_transformation sample_schema_target_listed
           (sample_numerical_columns ++ ["median_house_value"]) ["ocean_proximity"]
           "median_house_value").
  - reflexivity.
  - reflexivity.
  - reflexivity.
  - reflexivity.
  - unfold sample_numerical_columns. simpl. elem_of_concrete.
Defined.
